(** * FitHub workout trainer: repetition counting engine

    A shallow embedding of the pose-classification core of
    [client/src/components/WorkoutTrainer.tsx] (the version with form
    flags): the geometry helper [calculateAngle], the landmark accessor
    [land], the cooldown gate [tryCount], the ten per-exercise processors,
    the dispatch table [exerciseProcessors] and the frame callback
    [onPoseResults] together with the lifecycle operations that reset the
    session.

    JavaScript numbers that measure something continuous (coordinates,
    angles, the [performance.now()] clock) are modelled as real numbers;
    the counters [reps] and [goodReps] as integers.  The mutable refs the
    frame callback works on ([metricsRef], [selectedExerciseRef],
    [isActiveRef], [lastRepAtRef]) are threaded explicitly; the React
    state [metrics] that mirrors [metricsRef] for rendering, the plank
    ticker and the drawing code are left out. *)

From Stdlib Require Import Reals Lra Lia ZArith List String Bool.
Import ListNotations.

Open Scope R_scope.

(** ** Comparisons on numbers, as booleans *)

Definition Rltb (x y : R) : bool := if Rlt_dec x y then true else false.
Definition Rgtb (x y : R) : bool := if Rlt_dec y x then true else false.

Notation "x <? y" := (Rltb x y) : R_scope.
Notation "x >? y" := (Rgtb x y) : R_scope.

(** ** Geometry helpers *)

(** [Math.atan2 y x]: the direction of the vector [(x, y)], in radians,
    in the interval (-PI, PI]; the null vector has direction [0]. *)
Definition atan2 (y x : R) : R :=
  if Rlt_dec 0 x then atan (y / x)
  else if Rlt_dec x 0 then
    (if Rlt_dec y 0 then atan (y / x) - PI else atan (y / x) + PI)
  else if Rlt_dec 0 y then PI / 2
  else if Rlt_dec y 0 then - (PI / 2)
  else 0.

(** A point is a two-element array [[x, y]]. *)
Definition Point : Type := (R * R)%type.

Definition calculateAngle (a b c : Point) : R :=
  let radians :=
    atan2 (snd c - snd b) (fst c - fst b) - atan2 (snd a - snd b) (fst a - fst b) in
  let angle := Rabs ((radians * 180) / PI) in
  if angle >? 180 then 360 - angle else angle.

(** A pose landmark; either coordinate may be missing. *)
Record Landmark : Type := mkLandmark {
  x : option R;
  y : option R
}.

Definition Landmarks : Type := list Landmark.

(** [pts[idx]?.x ?? 0] *)
Definition coord (sel : Landmark -> option R) (pts : Landmarks) (idx : nat) : R :=
  match nth_error pts idx with
  | Some p => match sel p with Some v => v | None => 0 end
  | None => 0
  end.

Definition land (pts : Landmarks) (idx : nat) : Point :=
  (coord x pts idx, coord y pts idx).

(** ** Session data *)

Inductive Stage : Type := up | down | ready.

Definition Stage_eqb (s t : Stage) : bool :=
  match s, t with
  | up, up | down, down | ready, ready => true
  | _, _ => false
  end.

(** The optional form flags; an absent flag is [None]. *)
Record FormFlags : Type := mkFormFlags {
  isDeepEnough : option bool;
  isFullyUp : option bool;
  isBackStraight : option bool
}.

(** [{}] *)
Definition noFlags : FormFlags := mkFormFlags None None None.

(** JavaScript truthiness of an optional boolean. *)
Definition truthy (o : option bool) : bool :=
  match o with
  | Some true => true
  | _ => false
  end.

Record ExerciseMetrics : Type := mkMetrics {
  reps : Z;
  stage : Stage;
  goodReps : Z;
  feedback : list string;
  formFlags : FormFlags;
  timer : option Z;
  isTimerRunning : option bool
}.

(** Field assignments [next.f = v]. *)
Definition set_reps (v : Z) (m : ExerciseMetrics) : ExerciseMetrics :=
  mkMetrics v (stage m) (goodReps m) (feedback m) (formFlags m) (timer m) (isTimerRunning m).
Definition set_stage (v : Stage) (m : ExerciseMetrics) : ExerciseMetrics :=
  mkMetrics (reps m) v (goodReps m) (feedback m) (formFlags m) (timer m) (isTimerRunning m).
Definition set_goodReps (v : Z) (m : ExerciseMetrics) : ExerciseMetrics :=
  mkMetrics (reps m) (stage m) v (feedback m) (formFlags m) (timer m) (isTimerRunning m).
Definition set_feedback (v : list string) (m : ExerciseMetrics) : ExerciseMetrics :=
  mkMetrics (reps m) (stage m) (goodReps m) v (formFlags m) (timer m) (isTimerRunning m).
Definition set_formFlags (v : FormFlags) (m : ExerciseMetrics) : ExerciseMetrics :=
  mkMetrics (reps m) (stage m) (goodReps m) (feedback m) v (timer m) (isTimerRunning m).
Definition set_isTimerRunning (v : option bool) (m : ExerciseMetrics) : ExerciseMetrics :=
  mkMetrics (reps m) (stage m) (goodReps m) (feedback m) (formFlags m) (timer m) v.

(** [next.formFlags.f = v] *)
Definition set_isDeepEnough (v : bool) (m : ExerciseMetrics) : ExerciseMetrics :=
  set_formFlags
    (mkFormFlags (Some v) (isFullyUp (formFlags m)) (isBackStraight (formFlags m))) m.
Definition set_isFullyUp (v : bool) (m : ExerciseMetrics) : ExerciseMetrics :=
  set_formFlags
    (mkFormFlags (isDeepEnough (formFlags m)) (Some v) (isBackStraight (formFlags m))) m.
Definition set_isBackStraight (v : bool) (m : ExerciseMetrics) : ExerciseMetrics :=
  set_formFlags
    (mkFormFlags (isDeepEnough (formFlags m)) (isFullyUp (formFlags m)) (Some v)) m.

(** The value every session starts from (the [useState] initialiser and
    the [base] object of [resetWorkout]). *)
Definition base : ExerciseMetrics :=
  mkMetrics 0%Z ready 0%Z [] noFlags (Some 0%Z) (Some false).

(** ** The cooldown gate

    [tryCount next now cooldownMs] reads and writes [lastRepAtRef]; the
    ref is passed in as [lastRepAt] and returned next to the updated
    metrics. *)
Definition tryCount (next : ExerciseMetrics) (now cooldownMs lastRepAt : R)
  : ExerciseMetrics * R :=
  if now - lastRepAt >? cooldownMs then
    let next := set_reps (reps next + 1)%Z next in
    let next :=
      if truthy (isDeepEnough (formFlags next)) && truthy (isFullyUp (formFlags next))
      then set_feedback ["Good form!"%string] (set_goodReps (goodReps next + 1)%Z next)
      else next in
    let next := set_formFlags noFlags next in
    (next, now)
  else (next, lastRepAt).

(** A processor maps the landmarks of a frame and the previous metrics to
    the next metrics; [now] is the value [performance.now()] returns
    while the frame is processed, [lastRepAt] the gate's ref. *)
Definition Processor : Type :=
  Landmarks -> ExerciseMetrics -> R -> R -> ExerciseMetrics * R.

(** ** Exercise processors

    Every processor first measures one or two quantities on the
    landmarks and then updates a copy of [prev].  The update is written
    as a function of the measured quantities ([..._step]); the processor
    itself composes it with the measurement. *)

Definition bicepCurl_step (elbowAngle : R) (prev : ExerciseMetrics) (now lastRepAt : R)
  : ExerciseMetrics * R :=
  let next := prev in
  let next :=
    if elbowAngle >? 150
    then set_isFullyUp true (set_stage down next)
    else next in
  if Stage_eqb (stage prev) down && (elbowAngle <? 50) then
    let next := set_stage up next in
    let next :=
      if elbowAngle <? 40
      then set_isDeepEnough true next
      else set_feedback ["Curl a little higher."%string] next in
    tryCount next now 350 lastRepAt
  else (next, lastRepAt).

Definition armElbowAngle (landmarks : Landmarks) : R :=
  let L_shoulder := land landmarks 11 in
  let L_elbow := land landmarks 13 in
  let L_wrist := land landmarks 15 in
  let R_shoulder := land landmarks 12 in
  let R_elbow := land landmarks 14 in
  let R_wrist := land landmarks 16 in
  Rmin (calculateAngle L_shoulder L_elbow L_wrist)
       (calculateAngle R_shoulder R_elbow R_wrist).

Definition nextBicepCurl : Processor := fun landmarks prev =>
  let elbowAngle := armElbowAngle landmarks in
  bicepCurl_step elbowAngle prev.

Definition squats_step (kneeAngle : R) (prev : ExerciseMetrics) (now lastRepAt : R)
  : ExerciseMetrics * R :=
  let next := prev in
  let next :=
    if kneeAngle >? 160
    then set_isFullyUp true (set_stage up next)
    else next in
  if Stage_eqb (stage prev) up && (kneeAngle <? 120) then
    let next := set_stage down next in
    let next :=
      if kneeAngle <? 100
      then set_isDeepEnough true next
      else set_feedback ["Go a bit deeper."%string] next in
    tryCount next now 450 lastRepAt
  else (next, lastRepAt).

Definition leftKneeAngle (landmarks : Landmarks) : R :=
  calculateAngle (land landmarks 23) (land landmarks 25) (land landmarks 27).

Definition rightKneeAngle (landmarks : Landmarks) : R :=
  calculateAngle (land landmarks 24) (land landmarks 26) (land landmarks 28).

Definition nextSquats : Processor := fun landmarks prev =>
  let kneeAngle := Rmin (leftKneeAngle landmarks) (rightKneeAngle landmarks) in
  squats_step kneeAngle prev.

Definition pushups_step (elbowAngle bodyAngle : R) (prev : ExerciseMetrics)
  (now lastRepAt : R) : ExerciseMetrics * R :=
  let next := prev in
  let next :=
    if (bodyAngle <? 155) || (bodyAngle >? 205)
    then set_isBackStraight false (set_feedback ["Keep your body straight!"%string] next)
    else set_isBackStraight true next in
  let next :=
    if elbowAngle >? 150
    then set_isFullyUp true (set_stage up next)
    else next in
  if Stage_eqb (stage prev) up && (elbowAngle <? 110) then
    let next := set_stage down next in
    let next :=
      if elbowAngle <? 100
      then set_isDeepEnough true next
      else set_feedback ["Go a bit lower."%string] next in
    if truthy (isBackStraight (formFlags next))
    then tryCount next now 450 lastRepAt
    else (next, lastRepAt)
  else (next, lastRepAt).

(** Right shoulder, right hip, right ankle. *)
Definition bodyLineAngle (landmarks : Landmarks) : R :=
  calculateAngle (land landmarks 12) (land landmarks 24) (land landmarks 28).

Definition nextPushups : Processor := fun landmarks prev =>
  let elbowAngle := armElbowAngle landmarks in
  let bodyAngle := bodyLineAngle landmarks in
  pushups_step elbowAngle bodyAngle prev.

Definition lunges_step (frontKneeAngle backKneeAngle : R) (prev : ExerciseMetrics)
  (now lastRepAt : R) : ExerciseMetrics * R :=
  let next := prev in
  let next :=
    if (frontKneeAngle >? 150) && (backKneeAngle >? 150)
    then set_isFullyUp true (set_stage up next)
    else next in
  if Stage_eqb (stage prev) up && ((frontKneeAngle <? 120) || (backKneeAngle <? 120)) then
    let next := set_stage down next in
    let next :=
      if (frontKneeAngle <? 110) && (backKneeAngle <? 110)
      then set_isDeepEnough true next
      else set_feedback ["Lower your hips."%string] next in
    tryCount next now 500 lastRepAt
  else (next, lastRepAt).

Definition nextLunges : Processor := fun landmarks prev =>
  let frontKneeAngle := leftKneeAngle landmarks in
  let backKneeAngle := rightKneeAngle landmarks in
  lunges_step frontKneeAngle backKneeAngle prev.

Definition overheadPress_step (elbowAngle : R) (prev : ExerciseMetrics)
  (now lastRepAt : R) : ExerciseMetrics * R :=
  let next := prev in
  let next :=
    if elbowAngle <? 110
    then set_isDeepEnough true (set_stage down next)
    else next in
  if Stage_eqb (stage prev) down && (elbowAngle >? 140) then
    let next := set_stage up next in
    let next :=
      if elbowAngle >? 150
      then set_isFullyUp true next
      else set_feedback ["Extend arms fully!"%string] next in
    tryCount next now 350 lastRepAt
  else (next, lastRepAt).

Definition nextOverheadPress : Processor := fun landmarks prev =>
  let elbowAngle := armElbowAngle landmarks in
  overheadPress_step elbowAngle prev.

Definition lateralRaises_step (shoulderAngle elbowAngle : R) (prev : ExerciseMetrics)
  (now lastRepAt : R) : ExerciseMetrics * R :=
  let next := prev in
  let next :=
    if elbowAngle <? 140
    then set_feedback ["Keep arms straighter!"%string] next
    else next in
  let next :=
    if shoulderAngle <? 40
    then set_isDeepEnough true (set_stage down next)
    else next in
  if Stage_eqb (stage prev) down && (shoulderAngle >? 60) then
    let next := set_stage up next in
    let next :=
      if shoulderAngle >? 75
      then set_isFullyUp true next
      else set_feedback ["Raise a little higher."%string] next in
    tryCount next now 500 lastRepAt
  else (next, lastRepAt).

Definition raiseShoulderAngle (landmarks : Landmarks) : R :=
  let L_hip := land landmarks 23 in
  let L_shoulder := land landmarks 11 in
  let L_elbow := land landmarks 13 in
  let R_hip := land landmarks 24 in
  let R_shoulder := land landmarks 12 in
  let R_elbow := land landmarks 14 in
  Rmax (calculateAngle L_hip L_shoulder L_elbow)
       (calculateAngle R_hip R_shoulder R_elbow).

Definition nextLateralRaises : Processor := fun landmarks prev =>
  let shoulderAngle := raiseShoulderAngle landmarks in
  let elbowAngle := armElbowAngle landmarks in
  lateralRaises_step shoulderAngle elbowAngle prev.

Definition pullups_step (wrist_y shoulder_y : R) (prev : ExerciseMetrics)
  (now lastRepAt : R) : ExerciseMetrics * R :=
  let next := prev in
  let next :=
    if wrist_y >? shoulder_y
    then set_isFullyUp true (set_stage down next)
    else next in
  if Stage_eqb (stage prev) down && (wrist_y <? shoulder_y) then
    let next := set_stage up next in
    let next :=
      if wrist_y <? shoulder_y - 0.05
      then set_isDeepEnough true next
      else set_feedback ["Pull higher!"%string] next in
    tryCount next now 600 lastRepAt
  else (next, lastRepAt).

Definition wristHeight (landmarks : Landmarks) : R :=
  Rmin (snd (land landmarks 15)) (snd (land landmarks 16)).

Definition shoulderHeight (landmarks : Landmarks) : R :=
  Rmin (snd (land landmarks 11)) (snd (land landmarks 12)).

Definition nextPullups : Processor := fun landmarks prev =>
  let wrist_y := wristHeight landmarks in
  let shoulder_y := shoulderHeight landmarks in
  pullups_step wrist_y shoulder_y prev.

Definition gluteBridges_step (hipAngle : R) (prev : ExerciseMetrics)
  (now lastRepAt : R) : ExerciseMetrics * R :=
  let next := prev in
  let next :=
    if hipAngle <? 140
    then set_isDeepEnough true (set_stage down next)
    else next in
  if Stage_eqb (stage prev) down && (hipAngle >? 150) then
    let next := set_stage up next in
    let next :=
      if hipAngle >? 155
      then set_isFullyUp true next
      else set_feedback ["Extend your hips fully."%string] next in
    tryCount next now 500 lastRepAt
  else (next, lastRepAt).

Definition leftHipAngle (landmarks : Landmarks) : R :=
  calculateAngle (land landmarks 11) (land landmarks 23) (land landmarks 25).

Definition rightHipAngle (landmarks : Landmarks) : R :=
  calculateAngle (land landmarks 12) (land landmarks 24) (land landmarks 26).

Definition nextGluteBridges : Processor := fun landmarks prev =>
  let hipAngle := Rmax (leftHipAngle landmarks) (rightHipAngle landmarks) in
  gluteBridges_step hipAngle prev.

Definition crunches_step (hipAngle : R) (prev : ExerciseMetrics)
  (now lastRepAt : R) : ExerciseMetrics * R :=
  let next := prev in
  let next :=
    if hipAngle >? 115
    then set_isDeepEnough true (set_stage down next)
    else next in
  if Stage_eqb (stage prev) down && (hipAngle <? 110) then
    let next := set_stage up next in
    let next :=
      if hipAngle <? 105
      then set_isFullyUp true next
      else set_feedback ["Crunch a little higher."%string] next in
    tryCount next now 400 lastRepAt
  else (next, lastRepAt).

Definition nextCrunches : Processor := fun landmarks prev =>
  let hipAngle := Rmin (leftHipAngle landmarks) (rightHipAngle landmarks) in
  crunches_step hipAngle prev.

(** The plank processor never consults the gate. *)
Definition plank_step (bodyAngle : R) (prev : ExerciseMetrics) : ExerciseMetrics :=
  let next := prev in
  if (bodyAngle >? 155) && (bodyAngle <? 205)
  then set_feedback ["Good form! Hold it."%string] (set_isTimerRunning (Some true) next)
  else set_feedback ["Straighten your back!"%string] (set_isTimerRunning (Some false) next).

Definition nextPlank : Processor := fun landmarks prev _ lastRepAt =>
  let bodyAngle := bodyLineAngle landmarks in
  (plank_step bodyAngle prev, lastRepAt).

(** ** Dispatch *)

Inductive Exercise : Type :=
  | bicep_curl | squats | pushups | lunges | overhead_press
  | lateral_raises | pullups | glute_bridges | crunches | plank.

(** The keys of the [exerciseProcessors] object. *)
Definition exerciseOfId (id : string) : option Exercise :=
  if String.eqb id "bicep_curl" then Some bicep_curl
  else if String.eqb id "squats" then Some squats
  else if String.eqb id "pushups" then Some pushups
  else if String.eqb id "lunges" then Some lunges
  else if String.eqb id "overhead_press" then Some overhead_press
  else if String.eqb id "lateral_raises" then Some lateral_raises
  else if String.eqb id "pullups" then Some pullups
  else if String.eqb id "glute_bridges" then Some glute_bridges
  else if String.eqb id "crunches" then Some crunches
  else if String.eqb id "plank" then Some plank
  else None.

Definition processorOf (e : Exercise) : Processor :=
  match e with
  | bicep_curl => nextBicepCurl
  | squats => nextSquats
  | pushups => nextPushups
  | lunges => nextLunges
  | overhead_press => nextOverheadPress
  | lateral_raises => nextLateralRaises
  | pullups => nextPullups
  | glute_bridges => nextGluteBridges
  | crunches => nextCrunches
  | plank => nextPlank
  end.

(** [exerciseProcessors[id]]; an unknown key gives [undefined].  Keys
    that a JavaScript object inherits from its prototype are not
    modelled: the selection only ever holds an id of the catalog. *)
Definition exerciseProcessors (id : string) : option Processor :=
  option_map processorOf (exerciseOfId id).

(** The refs the frame callback reads and writes. *)
Record Session : Type := mkSession {
  metricsRef : ExerciseMetrics;
  selectedExerciseRef : option string;
  isActiveRef : bool;
  lastRepAtRef : R
}.

(** What the pose source delivers: the landmarks of the frame, if a
    person was detected, and the clock reading during the callback. *)
Record PoseResults : Type := mkResults {
  poseLandmarks : option Landmarks;
  clock : R
}.

(** [selectedExerciseRef.current || ''] *)
Definition selectedKey (s : Session) : string :=
  match selectedExerciseRef s with
  | Some id => id
  | None => ""%string
  end.

Definition onPoseResults (results : PoseResults) (s : Session) : Session :=
  match isActiveRef s, poseLandmarks results with
  | true, Some landmarks =>
      let current := metricsRef s in
      let next := current in
      match exerciseProcessors (selectedKey s) with
      | Some exerciseProcessor =>
          let '(next, lastRepAt) :=
            exerciseProcessor landmarks next (clock results) (lastRepAtRef s) in
          mkSession next (selectedExerciseRef s) (isActiveRef s) lastRepAt
      | None => mkSession next (selectedExerciseRef s) (isActiveRef s) (lastRepAtRef s)
      end
  | _, _ => s
  end.

(** The frames of a session, oldest first. *)
Definition runFrames (frames : list PoseResults) (s : Session) : Session :=
  fold_left (fun acc results => onPoseResults results acc) frames s.

(** ** Lifecycle *)

Definition option_eq_dec {A : Type} (dec : forall a b : A, {a = b} + {a <> b})
  (o1 o2 : option A) : {o1 = o2} + {o1 <> o2}.
Proof. decide equality. Defined.

(** The state of a freshly mounted component. *)
Definition initialSession : Session := mkSession base None false 0.

(** [setSelectedExercise id] followed by the effects that depend on
    [selectedExercise]; they run only when the selection changes. *)
Definition selectExercise (id : option string) (s : Session) : Session :=
  if option_eq_dec string_dec id (selectedExerciseRef s) then s
  else mkSession base id (isActiveRef s) 0.

(** The end of the countdown started by [startWorkout]. *)
Definition startWorkout (s : Session) : Session :=
  mkSession (metricsRef s) (selectedExerciseRef s) true (lastRepAtRef s).

Definition endWorkout (s : Session) : Session :=
  mkSession (metricsRef s) (selectedExerciseRef s) false (lastRepAtRef s).

Definition resetWorkout (s : Session) : Session :=
  mkSession base (selectedExerciseRef s) false 0.

(** What can happen to a mounted component, one event at a time. *)
Inductive Event : Type :=
  | EvFrame (results : PoseResults)
  | EvSelect (id : option string)
  | EvStart
  | EvEnd
  | EvReset.

Definition handle (ev : Event) (s : Session) : Session :=
  match ev with
  | EvFrame results => onPoseResults results s
  | EvSelect id => selectExercise id s
  | EvStart => startWorkout s
  | EvEnd => endWorkout s
  | EvReset => resetWorkout s
  end.

Definition runEvents (events : list Event) (s : Session) : Session :=
  fold_left (fun acc ev => handle ev acc) events s.

(** ** Reachable counting states

    The pair of [metricsRef] and [lastRepAtRef] after any number of frame
    updates, each by any of the registered processors. *)
Inductive reachable : ExerciseMetrics -> R -> Prop :=
  | reachable_base : reachable base 0
  | reachable_update : forall e landmarks now m lastRepAt,
      reachable m lastRepAt ->
      reachable (fst (processorOf e landmarks m now lastRepAt))
                (snd (processorOf e landmarks m now lastRepAt)).

(** ** Per-exercise thresholds

    The quantity each repetition processor tracks and the two relaxed
    thresholds that move its stage, read off the processors above. *)
Record Thresholds : Type := mkThresholds {
  combined : Landmarks -> R;
  restAbove : bool;   (* the rest position is the one with the larger value *)
  T_enter : R;
  T_exit : R;
  cooldownMs : R
}.

Definition thresholdsOf (e : Exercise) : option Thresholds :=
  match e with
  | bicep_curl => Some (mkThresholds armElbowAngle true 150 50 350)
  | squats =>
      Some (mkThresholds
              (fun l => Rmin (leftKneeAngle l) (rightKneeAngle l)) true 160 120 450)
  | pushups => Some (mkThresholds armElbowAngle true 150 110 450)
  | lunges =>
      Some (mkThresholds
              (fun l => Rmin (leftKneeAngle l) (rightKneeAngle l)) true 150 120 500)
  | overhead_press => Some (mkThresholds armElbowAngle false 110 140 350)
  | lateral_raises => Some (mkThresholds raiseShoulderAngle false 40 60 500)
  | pullups =>
      Some (mkThresholds (fun l => wristHeight l - shoulderHeight l) true 0 0 600)
  | glute_bridges =>
      Some (mkThresholds
              (fun l => Rmax (leftHipAngle l) (rightHipAngle l)) false 140 150 500)
  | crunches =>
      Some (mkThresholds
              (fun l => Rmin (leftHipAngle l) (rightHipAngle l)) true 115 110 400)
  | plank => None
  end.

(** The value lies between the two relaxed thresholds and crosses
    neither; every value strictly between them qualifies. *)
Definition betweenThresholds (t : Thresholds) (v : R) : Prop :=
  if restAbove t then T_exit t <= v <= T_enter t else T_enter t <= v <= T_exit t.

(** The value lies strictly between the two relaxed thresholds. *)
Definition strictlyBetween (t : Thresholds) (v : R) : Prop :=
  if restAbove t then T_exit t < v < T_enter t else T_enter t < v < T_exit t.

(** The same thresholds under the dispatch key of the exercise. *)
Definition thresholdsOfId (id : string) : option Thresholds :=
  match exerciseOfId id with
  | Some e => thresholdsOf e
  | None => None
  end.

(** The cooldown a processor hands to the gate; the plank has none. *)
Definition cooldownOf (e : Exercise) : R :=
  match thresholdsOf e with
  | Some t => cooldownMs t
  | None => 0
  end.

(** ** Outcomes of an update, as seen by the counters *)

(** The counters and the gate's ref are as they were. *)
Definition notCounted (m : ExerciseMetrics) (lastRepAt : R) (r : ExerciseMetrics * R) : Prop :=
  reps (fst r) = reps m /\ goodReps (fst r) = goodReps m /\ snd r = lastRepAt.

(** One repetition was accepted at [now] under cooldown [cd]. *)
Definition countedOnce (cd now : R) (m : ExerciseMetrics) (lastRepAt : R)
  (r : ExerciseMetrics * R) : Prop :=
  now - lastRepAt > cd /\
  reps (fst r) = (reps m + 1)%Z /\
  (goodReps (fst r) = goodReps m \/ goodReps (fst r) = (goodReps m + 1)%Z) /\
  snd r = now.

(** The pair of refs a session holds. *)
Definition counting (s : Session) : ExerciseMetrics * R :=
  (metricsRef s, lastRepAtRef s).

(** ** The angle in the words of its description

    The direction of the ray from [b] through [p], in degrees, and the
    folding of a turn of more than half a circle. *)
Definition direction (b p : Point) : R :=
  atan2 (snd p - snd b) (fst p - fst b) * 180 / PI.

Definition fold180 (d : R) : R := if d >? 180 then 360 - d else d.

(** ** Synthetic poses

    Frames on which the measured angles are known. *)

(** The point of the unit circle in direction [deg] degrees. *)
Definition unitPoint (deg : R) : Point :=
  (cos (deg * PI / 180), sin (deg * PI / 180)).

Definition origin : Point := (0, 0).

Definition landmarkAt (p : Point) : Landmark :=
  mkLandmark (Some (fst p)) (Some (snd p)).

(** A full frame of 33 landmarks: both elbows and the right hip at the
    origin, both wrists on the x axis, both shoulders turned [elbow]
    degrees away from the wrists and the right ankle [body] degrees away
    from the right shoulder. *)
Definition pose (elbow body : R) : Landmarks :=
  map (fun idx =>
         match idx with
         | 11%nat | 12%nat => landmarkAt (unitPoint elbow)
         | 15%nat | 16%nat => landmarkAt (1, 0)
         | 28%nat => landmarkAt (unitPoint (elbow - body))
         | _ => landmarkAt origin
         end)
      (seq 0 33).

(** A frame of that pose delivered at clock reading [t]. *)
Definition frameAt (elbow body t : R) : PoseResults :=
  mkResults (Some (pose elbow body)) t.

(** A frame without detection. *)
Definition noDetection (t : R) : PoseResults := mkResults None t.

(** A session in which [id] was selected and the countdown has ended. *)
Definition activeSession (id : string) : Session :=
  startWorkout (selectExercise (Some id) initialSession).

(** ** The earlier revision of the bicep-curl processor

    It starts every update from an empty feedback list and has no form
    flags; its gate counts every accepted repetition as a good one. *)
Module Earlier.

Definition tryCount (next : ExerciseMetrics) (now cooldownMs lastRepAt : R)
  : ExerciseMetrics * R :=
  if now - lastRepAt >? cooldownMs then
    let next := set_reps (reps next + 1)%Z next in
    let next := set_goodReps (goodReps next + 1)%Z next in
    (next, now)
  else (next, lastRepAt).

Definition bicepCurl_step (elbowAngle : R) (prev : ExerciseMetrics) (now lastRepAt : R)
  : ExerciseMetrics * R :=
  let next := set_feedback [] prev in
  let next := if elbowAngle >? 160 then set_stage down next else next in
  if (elbowAngle <? 30) && Stage_eqb (stage prev) down then
    let next := set_stage up next in
    tryCount next now 350 lastRepAt
  else (next, lastRepAt).

Definition nextBicepCurl : Processor := fun landmarks prev =>
  let elbowAngle := armElbowAngle landmarks in
  bicepCurl_step elbowAngle prev.

(** The other processors of that revision. *)

Definition squats_step (kneeAngle : R) (prev : ExerciseMetrics) (now lastRepAt : R)
  : ExerciseMetrics * R :=
  let next := set_feedback [] prev in
  let next := if kneeAngle >? 165 then set_stage up next else next in
  if (kneeAngle <? 90) && Stage_eqb (stage prev) up then
    let next := set_stage down next in
    tryCount next now 450 lastRepAt
  else (next, lastRepAt).

Definition nextSquats : Processor := fun landmarks prev =>
  let kneeAngle := Rmin (leftKneeAngle landmarks) (rightKneeAngle landmarks) in
  squats_step kneeAngle prev.

Definition pushups_step (elbowAngle : R) (prev : ExerciseMetrics) (now lastRepAt : R)
  : ExerciseMetrics * R :=
  let next := set_feedback [] prev in
  let next := if elbowAngle >? 160 then set_stage up next else next in
  if (elbowAngle <? 90) && Stage_eqb (stage prev) up then
    let next := set_stage down next in
    tryCount next now 450 lastRepAt
  else (next, lastRepAt).

Definition nextPushups : Processor := fun landmarks prev =>
  let elbowAngle := armElbowAngle landmarks in
  pushups_step elbowAngle prev.

Definition lunges_step (kneeAngle : R) (prev : ExerciseMetrics) (now lastRepAt : R)
  : ExerciseMetrics * R :=
  let next := set_feedback [] prev in
  let next := if kneeAngle >? 160 then set_stage up next else next in
  if (kneeAngle <? 100) && Stage_eqb (stage prev) up then
    let next := set_stage down next in
    tryCount next now 500 lastRepAt
  else (next, lastRepAt).

Definition nextLunges : Processor := fun landmarks prev =>
  let kneeAngle := Rmin (leftKneeAngle landmarks) (rightKneeAngle landmarks) in
  lunges_step kneeAngle prev.

Definition overheadPress_step (elbowAngle : R) (prev : ExerciseMetrics)
  (now lastRepAt : R) : ExerciseMetrics * R :=
  let next := set_feedback [] prev in
  let next := if elbowAngle <? 90 then set_stage down next else next in
  if (elbowAngle >? 160) && Stage_eqb (stage prev) down then
    let next := set_stage up next in
    tryCount next now 350 lastRepAt
  else (next, lastRepAt).

Definition nextOverheadPress : Processor := fun landmarks prev =>
  let elbowAngle := armElbowAngle landmarks in
  overheadPress_step elbowAngle prev.

Definition lateralRaises_step (shoulderAngle : R) (prev : ExerciseMetrics)
  (now lastRepAt : R) : ExerciseMetrics * R :=
  let next := set_feedback [] prev in
  let next := if shoulderAngle <? 30 then set_stage down next else next in
  if (shoulderAngle >? 80) && Stage_eqb (stage prev) down then
    let next := set_stage up next in
    tryCount next now 500 lastRepAt
  else (next, lastRepAt).

Definition nextLateralRaises : Processor := fun landmarks prev =>
  let shoulderAngle := raiseShoulderAngle landmarks in
  lateralRaises_step shoulderAngle prev.

Definition gluteBridges_step (hipAngle : R) (prev : ExerciseMetrics)
  (now lastRepAt : R) : ExerciseMetrics * R :=
  let next := set_feedback [] prev in
  let next := if hipAngle <? 120 then set_stage down next else next in
  if (hipAngle >? 160) && Stage_eqb (stage prev) down then
    let next := set_stage up next in
    tryCount next now 500 lastRepAt
  else (next, lastRepAt).

Definition nextGluteBridges : Processor := fun landmarks prev =>
  let hipAngle := Rmax (leftHipAngle landmarks) (rightHipAngle landmarks) in
  gluteBridges_step hipAngle prev.

Definition crunches_step (hipAngle : R) (prev : ExerciseMetrics)
  (now lastRepAt : R) : ExerciseMetrics * R :=
  let next := set_feedback [] prev in
  let next := if hipAngle >? 130 then set_stage down next else next in
  if (hipAngle <? 100) && Stage_eqb (stage prev) down then
    let next := set_stage up next in
    tryCount next now 400 lastRepAt
  else (next, lastRepAt).

Definition nextCrunches : Processor := fun landmarks prev =>
  let hipAngle := Rmin (leftHipAngle landmarks) (rightHipAngle landmarks) in
  crunches_step hipAngle prev.

(** [next.feedback.push(msg)] on the fresh empty list. *)
Definition plank_step (bodyAngle : R) (prev : ExerciseMetrics) : ExerciseMetrics :=
  let next := set_feedback [] prev in
  if (bodyAngle >? 160) && (bodyAngle <? 200)
  then set_feedback (feedback next ++ ["Good form! Hold it."%string])
         (set_isTimerRunning (Some true) next)
  else set_feedback (feedback next ++ ["Straighten your back!"%string])
         (set_isTimerRunning (Some false) next).

Definition nextPlank : Processor := fun landmarks prev _ lastRepAt =>
  let bodyAngle := bodyLineAngle landmarks in
  (plank_step bodyAngle prev, lastRepAt).

End Earlier.

(** ** The isometric scenario *)

(** The [isTimerRunning] flag after each of a sequence of body angles. *)
Fixpoint holdingTrace (angles : list R) (prev : ExerciseMetrics) : list (option bool) :=
  match angles with
  | [] => []
  | bodyAngle :: rest =>
      let next := plank_step bodyAngle prev in
      isTimerRunning next :: holdingTrace rest next
  end.

(** ** Scenarios *)

(** The counting state after one full curl: arms extended, then fully
    flexed one second into the session. *)
Definition afterOneCurl : ExerciseMetrics * R :=
  let st := nextBicepCurl (pose 170 170) base 0 0 in
  nextBicepCurl (pose 30 170) (fst st) 1000 (snd st).

(** How many repetitions a frame adds to the count of a session. *)
Definition countedBy (results : PoseResults) (s : Session) : Z :=
  (reps (metricsRef (onPoseResults results s)) - reps (metricsRef s))%Z.

(** A session as it is after creation, a change of exercise or a reset. *)
Definition fresh (s : Session) : Prop :=
  metricsRef s = base /\ lastRepAtRef s = 0.

(** The curl scenario: arms extended on two frames, a shallow curl to 45
    degrees at [t3], arms extended again, a deep curl to 35 degrees at
    [t5]. *)
Definition curlFrames (t1 t2 t3 t4 t5 : R) : list PoseResults :=
  [frameAt 170 170 t1; frameAt 160 170 t2; frameAt 45 170 t3;
   frameAt 170 170 t4; frameAt 35 170 t5].

(** A curl session in which the arms have just been extended. *)
Definition curlReady : Session :=
  onPoseResults (frameAt 170 170 500) (activeSession "bicep_curl").


(** Push-up frames, each with its clock, fed to the processor one after
    another from a counting state and the gate's ref. *)
Definition runPushups (frames : list (Landmarks * R)) (st : ExerciseMetrics * R)
  : ExerciseMetrics * R :=
  fold_left (fun acc frame => nextPushups (fst frame) (fst acc) (snd frame) (snd acc))
    frames st.

(** The counters and the gate's ref of [st] are those of [m] and
    [lastRepAt]. *)
Definition sameCount (m : ExerciseMetrics) (lastRepAt : R) (st : ExerciseMetrics * R)
  : Prop :=
  reps (fst st) = reps m /\ goodReps (fst st) = goodReps m /\ snd st = lastRepAt.

(** A push-up session: elbows extended with a straight body, a descent
    with the hips dropped, and the body straightened at the bottom. *)
Definition pushupExtended : ExerciseMetrics * R :=
  nextPushups (pose 170 170) base 500 0.

Definition pushupBent : ExerciseMetrics * R :=
  nextPushups (pose 90 90) (fst pushupExtended) 1000 (snd pushupExtended).

Definition pushupRestored : ExerciseMetrics * R :=
  nextPushups (pose 90 170) (fst pushupBent) 1100 (snd pushupBent).
(** * Further parts of the component *)

(** ** Stages of a repetition

    The stage a repetition exercise takes at rest, and the stage it
    takes at the other extreme of the movement. *)
Definition restStage (e : Exercise) : Stage :=
  match e with
  | squats | pushups | lunges => up
  | _ => down
  end.

Definition flexedStage (e : Exercise) : Stage :=
  match e with
  | squats | pushups | lunges => down
  | _ => up
  end.

(** The tracked quantity is past the relaxed threshold of the rest
    position, or past the opposite one. *)
Definition crossesEnter (t : Thresholds) (v : R) : Prop :=
  if restAbove t then v > T_enter t else v < T_enter t.

Definition crossesExit (t : Thresholds) (v : R) : Prop :=
  if restAbove t then v < T_exit t else v > T_exit t.

(** The posture condition under which a processor hands a candidate to
    the gate; only the push-up processor has one. *)
Definition postureAllows (e : Exercise) (landmarks : Landmarks) : Prop :=
  match e with
  | pushups => 155 <= bodyLineAngle landmarks <= 205
  | _ => True
  end.

(** The cooldown of the exercise selected under [id]; 0 when the key is
    not one of the catalog. *)
Definition cooldownOfKey (id : string) : R :=
  match exerciseOfId id with
  | Some e => cooldownOf e
  | None => 0
  end.

(** A curl session after one curl counted at 1000 ms and a new
    extension of the arms. *)
Definition curlCounted : Session :=
  runFrames [frameAt 30 170 1000; frameAt 170 170 1100] curlReady.

(** ** The summary

    [formPercentage] as computed for the summary screen. *)
Definition formPercentage (metrics : ExerciseMetrics) : R :=
  if (reps metrics >? 0)%Z
  then IZR (goodReps metrics) / IZR (reps metrics) * 100
  else 0.

(** ** The plank ticker

    The updater the one-second interval hands to [setMetrics], and the
    condition under which the interval exists (read on the refs, which
    mirror the state the effect depends on). *)
Definition set_timer (v : option Z) (m : ExerciseMetrics) : ExerciseMetrics :=
  mkMetrics (reps m) (stage m) (goodReps m) (feedback m) (formFlags m) v (isTimerRunning m).

Definition tickTimer (prev : ExerciseMetrics) : ExerciseMetrics :=
  set_timer (Some ((match timer prev with Some t => t | None => 0 end) + 1)%Z) prev.

(** [n] ticks of the interval. *)
Fixpoint tickTimes (n : nat) (m : ExerciseMetrics) : ExerciseMetrics :=
  match n with
  | O => m
  | S n' => tickTimer (tickTimes n' m)
  end.

Definition timerEffectRuns (s : Session) : bool :=
  isActiveRef s
  && match selectedExerciseRef s with
     | Some id => String.eqb id "plank"
     | None => false
     end
  && truthy (isTimerRunning (metricsRef s)).

(** ** The countdown

    The updater the interval of [startWorkout] hands to [setCountdown]:
    the next value of the countdown, and whether this tick switches the
    workout to active.  [startWorkout] sets the countdown to 3 before the
    first tick; [resetWorkout] sets it to [null]. *)
Definition countdownTick (prev : option Z) : option Z * bool :=
  match prev with
  | Some p =>
      if (p =? 1)%Z then (None, true)
      else if (p =? 0)%Z then (None, false)
      else (Some (p - 1)%Z, false)
  | None => (None, false)
  end.

(** [n] ticks of the interval on a countdown and a session. *)
Fixpoint countdownRun (n : nat) (countdown : option Z) (s : Session) : option Z * Session :=
  match n with
  | O => (countdown, s)
  | S n' =>
      let '(next, activate) := countdownTick countdown in
      countdownRun n' next (if activate then startWorkout s else s)
  end.

(** An active plank session holding [m]. *)
Definition plankSession (m : ExerciseMetrics) (lastRepAt : R) : Session :=
  mkSession m (Some "plank"%string) true lastRepAt.

(** The flag a repetition processor sets together with the rest stage. *)
Definition restFlag (e : Exercise) (flags : FormFlags) : option bool :=
  match e with
  | bicep_curl | squats | pushups | lunges | pullups => isFullyUp flags
  | _ => isDeepEnough flags
  end.


(** ** The earlier revision as a whole

    Its dispatch table has no entry for pull-ups; its summary falls back
    to 100 when nothing was counted. *)
Module EarlierSession.

Definition processorOf (e : Exercise) : option Processor :=
  match e with
  | bicep_curl => Some Earlier.nextBicepCurl
  | squats => Some Earlier.nextSquats
  | pushups => Some Earlier.nextPushups
  | lunges => Some Earlier.nextLunges
  | overhead_press => Some Earlier.nextOverheadPress
  | lateral_raises => Some Earlier.nextLateralRaises
  | pullups => None
  | glute_bridges => Some Earlier.nextGluteBridges
  | crunches => Some Earlier.nextCrunches
  | plank => Some Earlier.nextPlank
  end.

Definition exerciseProcessors (id : string) : option Processor :=
  match exerciseOfId id with
  | Some e => processorOf e
  | None => None
  end.

Definition onPoseResults (results : PoseResults) (s : Session) : Session :=
  match isActiveRef s, poseLandmarks results with
  | true, Some landmarks =>
      let current := metricsRef s in
      match exerciseProcessors (selectedKey s) with
      | Some exerciseProcessor =>
          let '(next, lastRepAt) :=
            exerciseProcessor landmarks current (clock results) (lastRepAtRef s) in
          mkSession next (selectedExerciseRef s) (isActiveRef s) lastRepAt
      | None => mkSession current (selectedExerciseRef s) (isActiveRef s) (lastRepAtRef s)
      end
  | _, _ => s
  end.

Definition runFrames (frames : list PoseResults) (s : Session) : Session :=
  fold_left (fun acc results => onPoseResults results acc) frames s.

Definition formPercentage (metrics : ExerciseMetrics) : R :=
  if (reps metrics >? 0)%Z
  then IZR (goodReps metrics) / IZR (reps metrics) * 100
  else 100.

End EarlierSession.

From Stdlib Require DecimalString DecimalNat.
From Stdlib Require Import Sorted.

(** * The diet plan view

    [client/src/components/DietPlan.tsx]: the set of expanded sections
    and the helpers that cut the generated text into sections. *)
Module DietPlan.

(** ** Expanded sections

    A [Set<string>] in insertion order. *)
Definition StringSet : Type := list string.

Definition has (s : StringSet) (key : string) : bool :=
  existsb (String.eqb key) s.

Definition delete (key : string) (s : StringSet) : StringSet :=
  filter (fun k => negb (String.eqb k key)) s.

Definition add (key : string) (s : StringSet) : StringSet :=
  if has s key then s else s ++ [key].

(** [useState(new Set(['summary']))] *)
Definition initialExpanded : StringSet := ["summary"%string].

Definition toggleSection (section : string) (expandedSections : StringSet) : StringSet :=
  let newExpanded := expandedSections in
  if has newExpanded section
  then delete section newExpanded
  else add section newExpanded.

(** [`section-${index}`] *)
Definition sectionKey (index : nat) : string :=
  String.append "section-"
    (DecimalString.NilZero.string_of_uint (Nat.to_uint index)).

Definition isExpanded (expandedSections : StringSet) (index : nat) : bool :=
  has expandedSections (sectionKey index).

(** The header buttons clicked, oldest first. *)
Definition clickSections (clicks : list nat) (s : StringSet) : StringSet :=
  fold_left (fun acc index => toggleSection (sectionKey index) acc) clicks s.

(** ** Sections of the generated text

    A JavaScript string is a sequence of UTF-16 code units. *)
Definition JsString : Type := list N.

Definition codeUnits (s : string) : JsString :=
  map (fun a => N.of_nat (Ascii.nat_of_ascii a)) (list_ascii_of_string s).

Definition star : N := 42%N.

Definition isStar (c : N) : bool := N.eqb c star.

(** [[A-Z]] *)
Definition isUpper (c : N) : bool := (N.leb 65 c && N.leb c 90)%bool.

(** White space and line terminators, as [trim] understands them. *)
Definition isWhiteSpace (c : N) : bool :=
  ((N.leb 9 c && N.leb c 13)
   || N.eqb c 32 || N.eqb c 160 || N.eqb c 5760
   || (N.leb 8192 c && N.leb c 8202)
   || N.eqb c 8232 || N.eqb c 8233 || N.eqb c 8239 || N.eqb c 8287
   || N.eqb c 12288 || N.eqb c 65279)%bool.

Fixpoint trimStart (s : JsString) : JsString :=
  match s with
  | c :: rest => if isWhiteSpace c then trimStart rest else s
  | [] => []
  end.

Definition trim (s : JsString) : JsString :=
  rev (trimStart (rev (trimStart s))).

(** The longest prefix without a star, and what follows it: what the
    greedy [[^*]*] consumes. *)
Fixpoint nonStars (s : JsString) : JsString * JsString :=
  match s with
  | c :: rest =>
      if isStar c then ([], s)
      else let '(run, after) := nonStars rest in (c :: run, after)
  | [] => ([], [])
  end.

Definition startsWithStars (s : JsString) : bool :=
  match s with
  | a :: b :: _ => isStar a && isStar b
  | _ => false
  end.

(** [/\*\*[A-Z][^*]*\*\*/] matches at the start of [s]. *)
Definition headerAt (s : JsString) : bool :=
  match s with
  | a :: b :: c :: rest =>
      isStar a && isStar b && isUpper c && startsWithStars (snd (nonStars rest))
  | _ => false
  end.

(** [/\*\*([^*]+)\*\*/] at the start of [s]: the captured group and the
    rest of the string after the match. *)
Definition titleAt (s : JsString) : option (JsString * JsString) :=
  match s with
  | a :: b :: rest =>
      if isStar a && isStar b then
        match nonStars rest with
        | (c :: run, x :: y :: after) =>
            if isStar x && isStar y then Some (c :: run, after) else None
        | _ => None
        end
      else None
  | _ => None
  end.

(** The leftmost match of [/\*\*([^*]+)\*\*/]: what precedes it, the
    captured group, what follows it. *)
Fixpoint findTitle (s : JsString) : option (JsString * JsString * JsString) :=
  match titleAt s with
  | Some (title, after) => Some ([], title, after)
  | None =>
      match s with
      | c :: rest =>
          match findTitle rest with
          | Some (before, title, after) => Some (c :: before, title, after)
          | None => None
          end
      | [] => None
      end
  end.

Definition extractSectionTitle (section : JsString) : JsString :=
  match findTitle section with
  | Some (_, title, _) => title
  | None => codeUnits "Content"
  end.

Definition cleanSectionContent (section : JsString) : JsString :=
  trim (match findTitle section with
        | Some (before, _, after) => before ++ after
        | None => section
        end).

(** [response.split] on the lookahead for a header: the first piece and
    the pieces after it.  The string is cut in front of every header
    that does not start at position 0, and nothing is removed. *)
Fixpoint splitSections (s : JsString) : JsString * list JsString :=
  match s with
  | c :: rest =>
      let '(piece, pieces) := splitSections rest in
      if headerAt rest then ([c], piece :: pieces) else (c :: piece, pieces)
  | [] => ([], [])
  end.

(** The piece begins with two stars and an upper-case letter. *)
Definition beginsHeader (piece : JsString) : Prop :=
  exists c rest, piece = star :: star :: c :: rest /\ isUpper c = true.

Definition isBlank (s : JsString) : bool :=
  match trim s with
  | [] => true
  | _ => false
  end.

Definition formatAIResponse (response : JsString) : list JsString :=
  let '(piece, pieces) := splitSections response in
  filter (fun section => negb (isBlank section)) (piece :: pieces).

End DietPlan.

(** * The API client

    The base URL of [services/api.js]: the configured value without one
    trailing slash, or the local default when nothing usable is
    configured. *)
Module Api.

Definition slash : N := 47%N.

(** [replace] with the pattern of one slash at the end of the input
    and the empty replacement. *)
Definition stripTrailingSlash (s : DietPlan.JsString) : DietPlan.JsString :=
  match rev s with
  | c :: front => if N.eqb c slash then rev front else s
  | [] => s
  end.

Definition defaultBaseUrl : DietPlan.JsString :=
  DietPlan.codeUnits "http://localhost:5000".

(** The configured value, stripped, or the default when the value is
    absent or the stripped value is empty. *)
Definition API_BASE_URL (env : option DietPlan.JsString) : DietPlan.JsString :=
  match env with
  | Some s =>
      match stripTrailingSlash s with
      | [] => defaultBaseUrl
      | url => url
      end
  | None => defaultBaseUrl
  end.

End Api.


(** * When a counted repetition is a good one *)


(** * The PDF export

    The part of [downloadPDF] that places the text: the page and the
    height at which each line of the plan is drawn.  [pageHeight] is
    what the PDF library reports for its page. *)
Module Pdf.

Definition margin : R := 20.

Record Placed : Type := mkPlaced { page : nat; yPosition : R; text : string }.

(** Where the body starts on the first page: below the title, the date,
    the heading and the seven lines of personal information, and the
    heading of the plan. *)
Definition bodyStart : R :=
  let yPosition := margin in
  let yPosition := yPosition + 15 in
  let yPosition := yPosition + 20 in
  let yPosition := yPosition + 10 in
  let yPosition := fold_left (fun y (_ : nat) => y + 6) (seq 0 7) yPosition in
  let yPosition := yPosition + 10 in
  let yPosition := yPosition + 10 in
  yPosition.

(** The loop over the lines of the plan. *)
Fixpoint placeLines (pageHeight : R) (lines : list string) (page : nat) (yPosition : R)
  : list Placed :=
  match lines with
  | [] => []
  | line :: rest =>
      let '(page, yPosition) :=
        if yPosition >? pageHeight - margin
        then (S page, margin)
        else (page, yPosition) in
      mkPlaced page yPosition line :: placeLines pageHeight rest page (yPosition + 5)
  end.

Definition planLines (pageHeight : R) (lines : list string) : list Placed :=
  placeLines pageHeight lines 0 bodyStart.

End Pdf.
(** * Properties *)

(** ** Boolean comparisons against their propositions *)

Lemma Rltb_true (a b : R) : a < b -> (a <? b) = true.
Proof. intros H. unfold Rltb. destruct (Rlt_dec a b); [reflexivity | contradiction]. Qed.

Lemma Rltb_false (a b : R) : b <= a -> (a <? b) = false.
Proof. intros H. unfold Rltb. destruct (Rlt_dec a b); [lra | reflexivity]. Qed.

Lemma Rgtb_true (a b : R) : a > b -> (a >? b) = true.
Proof. intros H. unfold Rgtb. destruct (Rlt_dec b a); [reflexivity | contradiction]. Qed.

Lemma Rgtb_false (a b : R) : a <= b -> (a >? b) = false.
Proof. intros H. unfold Rgtb. destruct (Rlt_dec b a); [lra | reflexivity]. Qed.

Lemma Rltb_spec (a b : R) : (a <? b) = true <-> a < b.
Proof.
  unfold Rltb. destruct (Rlt_dec a b); split; intro H;
    try reflexivity; try assumption; try discriminate; contradiction.
Qed.

Lemma Rgtb_spec (a b : R) : (a >? b) = true <-> a > b.
Proof.
  unfold Rgtb. destruct (Rlt_dec b a); split; intro H;
    try reflexivity; try assumption; try discriminate; contradiction.
Qed.

Lemma Rltb_nspec (a b : R) : (a <? b) = false <-> b <= a.
Proof.
  split; intro H.
  - destruct (Rle_or_lt b a) as [Hle | Hlt]; [exact Hle |].
    rewrite (Rltb_true _ _ Hlt) in H. discriminate.
  - now apply Rltb_false.
Qed.

Lemma Rgtb_nspec (a b : R) : (a >? b) = false <-> a <= b.
Proof.
  split; intro H.
  - destruct (Rle_or_lt a b) as [Hle | Hlt]; [exact Hle |].
    rewrite (Rgtb_true _ _ Hlt) in H. discriminate.
  - now apply Rgtb_false.
Qed.

(** Evaluate the comparisons of a goal whose operands are numerals. *)
Ltac Rdecide :=
  repeat first
    [ rewrite Rltb_true by lra
    | rewrite Rltb_false by lra
    | rewrite Rgtb_true by lra
    | rewrite Rgtb_false by lra ].

(** Move every boolean comparison among the hypotheses to [Prop]. *)
Ltac Rreflect :=
  repeat match goal with
    | H : (_ <? _) = true |- _ => apply Rltb_spec in H
    | H : (_ <? _) = false |- _ => apply Rltb_nspec in H
    | H : (_ >? _) = true |- _ => apply Rgtb_spec in H
    | H : (_ >? _) = false |- _ => apply Rgtb_nspec in H
    end.

(** ** The gate *)

Lemma tryCount_rejects (next : ExerciseMetrics) (now cd lastRepAt : R) :
  now - lastRepAt <= cd -> tryCount next now cd lastRepAt = (next, lastRepAt).
Proof. intros H. unfold tryCount. now rewrite Rgtb_false. Qed.

Lemma tryCount_accepts (next : ExerciseMetrics) (now cd lastRepAt : R) :
  now - lastRepAt > cd ->
  tryCount next now cd lastRepAt =
    (set_formFlags noFlags
       (if truthy (isDeepEnough (formFlags next)) && truthy (isFullyUp (formFlags next))
        then set_feedback ["Good form!"%string]
               (set_goodReps (goodReps next + 1)%Z (set_reps (reps next + 1)%Z next))
        else set_reps (reps next + 1)%Z next),
     now).
Proof. intros H. unfold tryCount. now rewrite Rgtb_true. Qed.

Lemma tryCount_outcome (next : ExerciseMetrics) (now cd lastRepAt : R) :
  notCounted next lastRepAt (tryCount next now cd lastRepAt) \/
  countedOnce cd now next lastRepAt (tryCount next now cd lastRepAt).
Proof.
  destruct (Rle_or_lt (now - lastRepAt) cd) as [Hle | Hgt].
  - left. rewrite tryCount_rejects by exact Hle. repeat split.
  - right. rewrite tryCount_accepts by exact Hgt.
    destruct (truthy _ && truthy _); cbn; repeat split; auto.
Qed.

(** What the gate is handed differs from [m] in stage, flags and
    feedback only. *)
Lemma tryCount_outcome_from (m next : ExerciseMetrics) (now cd lastRepAt : R) :
  reps next = reps m -> goodReps next = goodReps m ->
  notCounted m lastRepAt (tryCount next now cd lastRepAt) \/
  countedOnce cd now m lastRepAt (tryCount next now cd lastRepAt).
Proof.
  intros Hr Hg.
  destruct (tryCount_outcome next now cd lastRepAt) as [H | H]; [left | right];
    unfold notCounted, countedOnce in *; rewrite <- Hr, <- Hg; exact H.
Qed.

Lemma cooldownOf_nonneg (e : Exercise) : 0 <= cooldownOf e.
Proof. destruct e; cbn; lra. Qed.

(** Open a processor down to its comparisons and its call of the gate. *)
Ltac unfold_processors :=
  unfold nextBicepCurl, nextSquats, nextPushups, nextLunges, nextOverheadPress,
    nextLateralRaises, nextPullups, nextGluteBridges, nextCrunches, nextPlank,
    bicepCurl_step, squats_step, pushups_step, lunges_step, overheadPress_step,
    lateralRaises_step, pullups_step, gluteBridges_step, crunches_step, plank_step;
  cbv zeta.

(** Each update by a processor counts nothing or counts exactly one
    repetition through the gate. *)
Lemma processor_outcome (e : Exercise) (landmarks : Landmarks) (m : ExerciseMetrics)
  (now lastRepAt : R) :
  notCounted m lastRepAt (processorOf e landmarks m now lastRepAt) \/
  countedOnce (cooldownOf e) now m lastRepAt (processorOf e landmarks m now lastRepAt).
Proof.
  destruct e; cbn [processorOf cooldownOf thresholdsOf cooldownMs];
    unfold_processors;
    repeat match goal with
      | |- context [if ?b then _ else _] =>
          lazymatch b with
          | context [tryCount] => fail
          | _ => destruct b eqn:?
          end
      end;
    try (left; repeat split; reflexivity);
    apply tryCount_outcome_from; reflexivity.
Qed.

(** ** Geometry *)

Lemma atan_nonpos (t : R) : t <= 0 -> atan t <= 0.
Proof.
  intros [Hlt | Heq].
  - left. rewrite <- atan_0. now apply atan_increasing.
  - subst t. rewrite atan_0. lra.
Qed.

Lemma atan_pos (t : R) : 0 < t -> 0 < atan t.
Proof. intros H. rewrite <- atan_0. now apply atan_increasing. Qed.

Lemma quotient_neg_neg (y x : R) : x < 0 -> y < 0 -> 0 < y / x.
Proof.
  intros Hx Hy. unfold Rdiv.
  pose proof (Rinv_lt_0_compat x Hx). nra.
Qed.

Lemma quotient_nonneg_neg (y x : R) : x < 0 -> 0 <= y -> y / x <= 0.
Proof.
  intros Hx Hy. unfold Rdiv.
  pose proof (Rinv_lt_0_compat x Hx). nra.
Qed.

Lemma atan2_bound (y x : R) : - PI < atan2 y x <= PI.
Proof.
  pose proof PI_RGT_0 as Hpi.
  pose proof (atan_bound (y / x)) as Hb.
  unfold atan2.
  destruct (Rlt_dec 0 x) as [Hx | Hx]; [lra |].
  destruct (Rlt_dec x 0) as [Hx' | Hx'].
  - destruct (Rlt_dec y 0) as [Hy | Hy].
    + pose proof (atan_pos _ (quotient_neg_neg y x Hx' Hy)). lra.
    + assert (0 <= y) as Hy0 by lra.
      pose proof (atan_nonpos _ (quotient_nonneg_neg y x Hx' Hy0)). lra.
  - destruct (Rlt_dec 0 y); [lra |].
    destruct (Rlt_dec y 0); lra.
Qed.

Lemma atan2_origin : atan2 0 0 = 0.
Proof.
  unfold atan2.
  destruct (Rlt_dec 0 0) as [H | _]; [lra |].
  destruct (Rlt_dec 0 0) as [H | _]; [lra | reflexivity].
Qed.

Lemma direction_bound (b p : Point) : -180 < direction b p <= 180.
Proof.
  pose proof PI_RGT_0 as Hpi.
  pose proof (atan2_bound (snd p - snd b) (fst p - fst b)) as [Hl Hu].
  unfold direction. set (t := atan2 _ _) in *.
  assert (0 < / PI) as Hinv by (apply Rinv_0_lt_compat; lra).
  assert (PI * / PI = 1) as Hone by (apply Rinv_r; lra).
  unfold Rdiv. split; nra.
Qed.

Lemma calculateAngle_directions (a b c : Point) :
  calculateAngle a b c = fold180 (Rabs (direction b c - direction b a)).
Proof.
  unfold calculateAngle, fold180, direction. cbv zeta.
  replace ((atan2 (snd c - snd b) (fst c - fst b)
            - atan2 (snd a - snd b) (fst a - fst b)) * 180 / PI)
    with (atan2 (snd c - snd b) (fst c - fst b) * 180 / PI
          - atan2 (snd a - snd b) (fst a - fst b) * 180 / PI)
    by (unfold Rdiv; ring).
  reflexivity.
Qed.

Lemma fold180_range (d : R) : 0 <= d < 360 -> 0 <= fold180 d <= 180.
Proof.
  intros [Hl Hu]. unfold fold180.
  destruct (d >? 180) eqn:E; Rreflect; lra.
Qed.

Lemma calculateAngle_range (a b c : Point) : 0 <= calculateAngle a b c <= 180.
Proof.
  rewrite calculateAngle_directions.
  apply fold180_range.
  pose proof (direction_bound b c). pose proof (direction_bound b a).
  split; [apply Rabs_pos |].
  apply Rabs_def1; lra.
Qed.

Lemma atan2_sin_cos (t : R) : - PI < t <= PI -> atan2 (sin t) (cos t) = t.
Proof.
  intros [Hl Hu].
  pose proof PI_RGT_0 as Hpi.
  destruct (Rlt_dec t (- (PI / 2))) as [Hlow | Hlow].
  - (* third quadrant *)
    assert (cos t < 0) as Hc.
    { rewrite <- cos_neg. apply cos_lt_0; lra. }
    assert (sin t < 0) as Hs by (apply sin_lt_0_var; lra).
    unfold atan2.
    destruct (Rlt_dec 0 (cos t)); [lra |].
    destruct (Rlt_dec (cos t) 0); [| lra].
    destruct (Rlt_dec (sin t) 0); [| lra].
    change (sin t / cos t) with (tan t).
    rewrite <- (Rtrigo_facts.tan_pi_plus t) by lra.
    rewrite atan_tan by lra. lra.
  - destruct (Req_dec t (- (PI / 2))) as [Heq | Hne].
    + subst t. unfold atan2.
      rewrite cos_neg, cos_PI2, sin_neg, sin_PI2.
      repeat match goal with
        | |- context [Rlt_dec ?u ?v] => destruct (Rlt_dec u v); try lra
        end.
    + destruct (Rlt_dec t (PI / 2)) as [Hmid | Hmid].
      * assert (0 < cos t) as Hc by (apply cos_gt_0; lra).
        unfold atan2.
        destruct (Rlt_dec 0 (cos t)); [| lra].
        change (sin t / cos t) with (tan t).
        apply atan_tan. lra.
      * destruct (Req_dec t (PI / 2)) as [Heq | Hne'].
        -- subst t. unfold atan2. rewrite cos_PI2, sin_PI2.
           destruct (Rlt_dec 0 0); [lra |].
           destruct (Rlt_dec 0 1); [reflexivity | lra].
        -- assert (cos t < 0) as Hc by (apply cos_lt_0; lra).
           assert (0 <= sin t) as Hs by (apply sin_ge_0; lra).
           unfold atan2.
           destruct (Rlt_dec 0 (cos t)); [lra |].
           destruct (Rlt_dec (cos t) 0); [| lra].
           destruct (Rlt_dec (sin t) 0); [lra |].
           change (sin t / cos t) with (tan t).
           assert (0 < cos (t - PI)) as Hc' by (apply cos_gt_0; lra).
           replace (tan t) with (tan (t - PI)).
           ++ rewrite atan_tan by lra. lra.
           ++ rewrite <- (Rtrigo_facts.tan_pi_plus (t - PI)) by lra.
              f_equal. lra.
Qed.

Lemma radians_of_degrees (deg : R) : deg * PI / 180 * 180 / PI = deg.
Proof. pose proof PI_RGT_0. field. lra. Qed.

Lemma direction_unitPoint (deg : R) :
  -180 < deg <= 180 -> direction origin (unitPoint deg) = deg.
Proof.
  intros [Hl Hu]. pose proof PI_RGT_0 as Hpi.
  unfold direction, origin, unitPoint. cbn [fst snd].
  rewrite !Rminus_0_r.
  rewrite atan2_sin_cos.
  - apply radians_of_degrees.
  - split.
    + apply Rmult_lt_reg_r with (r := 180); [lra |].
      replace (deg * PI / 180 * 180) with (deg * PI) by field. nra.
    + apply Rmult_le_reg_r with (r := 180); [lra |].
      replace (deg * PI / 180 * 180) with (deg * PI) by field. nra.
Qed.

Lemma direction_self (b : Point) : direction b b = 0.
Proof.
  unfold direction. rewrite !Rminus_diag. rewrite atan2_origin.
  unfold Rdiv. ring.
Qed.

Lemma direction_unit_x : direction origin (1, 0) = 0.
Proof.
  unfold direction, origin. cbn [fst snd]. rewrite !Rminus_0_r.
  unfold atan2. destruct (Rlt_dec 0 1); [| lra].
  replace (0 / 1) with 0 by field. rewrite atan_0. unfold Rdiv. ring.
Qed.

(** Every angle of [0, 180] degrees is measured on some triple. *)
Lemma calculateAngle_unitPoint (deg : R) :
  0 <= deg <= 180 -> calculateAngle (unitPoint deg) origin (1, 0) = deg.
Proof.
  intros [Hl Hu]. rewrite calculateAngle_directions.
  rewrite direction_unit_x, direction_unitPoint by lra.
  replace (0 - deg) with (- deg) by ring. rewrite Rabs_Ropp, Rabs_pos_eq by lra.
  unfold fold180. now rewrite Rgtb_false.
Qed.

Lemma calculateAngle_unitPoint_origin (deg : R) :
  0 <= deg <= 180 -> calculateAngle (unitPoint deg) origin origin = deg.
Proof.
  intros [Hl Hu]. rewrite calculateAngle_directions.
  rewrite direction_self, direction_unitPoint by lra.
  replace (0 - deg) with (- deg) by ring. rewrite Rabs_Ropp, Rabs_pos_eq by lra.
  unfold fold180. now rewrite Rgtb_false.
Qed.

Lemma calculateAngle_coincident (b : Point) : calculateAngle b b b = 0.
Proof.
  rewrite calculateAngle_directions, direction_self.
  rewrite Rminus_diag, Rabs_R0. unfold fold180. now rewrite Rgtb_false by lra.
Qed.

Lemma calculateAngle_same_ray (a b : Point) : calculateAngle a b a = 0.
Proof.
  rewrite calculateAngle_directions.
  rewrite Rminus_diag, Rabs_R0. unfold fold180. now rewrite Rgtb_false by lra.
Qed.

Lemma atan2_scale (k y x : R) : 0 < k -> atan2 (k * y) (k * x) = atan2 y x.
Proof.
  intros Hk.
  assert (forall u, 0 < u <-> 0 < k * u) as Hpos
    by (intros u; split; intros H; nra).
  assert (forall u, u < 0 <-> k * u < 0) as Hneg
    by (intros u; split; intros H; nra).
  unfold atan2.
  destruct (Rlt_dec 0 x) as [Hx | Hx];
    destruct (Rlt_dec 0 (k * x)) as [Hkx | Hkx];
    try (apply Hpos in Hx; contradiction);
    try (apply Hpos in Hkx; contradiction).
  - f_equal. field. lra.
  - destruct (Rlt_dec x 0) as [Hx' | Hx'];
      destruct (Rlt_dec (k * x) 0) as [Hkx' | Hkx'];
      try (apply Hneg in Hx'; contradiction);
      try (apply Hneg in Hkx'; contradiction).
    + replace (k * y / (k * x)) with (y / x) by (field; lra).
      destruct (Rlt_dec y 0) as [Hy | Hy];
        destruct (Rlt_dec (k * y) 0) as [Hky | Hky];
        try (apply Hneg in Hy; contradiction);
        try (apply Hneg in Hky; contradiction); reflexivity.
    + destruct (Rlt_dec 0 y) as [Hy | Hy];
        destruct (Rlt_dec 0 (k * y)) as [Hky | Hky];
        try (apply Hpos in Hy; contradiction);
        try (apply Hpos in Hky; contradiction); [reflexivity |].
      destruct (Rlt_dec y 0) as [Hy' | Hy'];
        destruct (Rlt_dec (k * y) 0) as [Hky' | Hky'];
        try (apply Hneg in Hy'; contradiction);
        try (apply Hneg in Hky'; contradiction); reflexivity.
Qed.

(** Two rays from [b] in the same direction enclose no angle. *)
Lemma calculateAngle_same_direction (a b : Point) (k : R) :
  0 < k ->
  calculateAngle a b (fst b + k * (fst a - fst b), snd b + k * (snd a - snd b)) = 0.
Proof.
  intros Hk. rewrite calculateAngle_directions.
  assert (direction b (fst b + k * (fst a - fst b), snd b + k * (snd a - snd b))
          = direction b a) as ->.
  { unfold direction. cbn [fst snd].
    replace (snd b + k * (snd a - snd b) - snd b) with (k * (snd a - snd b)) by ring.
    replace (fst b + k * (fst a - fst b) - fst b) with (k * (fst a - fst b)) by ring.
    now rewrite atan2_scale. }
  rewrite Rminus_diag, Rabs_R0. unfold fold180. now rewrite Rgtb_false by lra.
Qed.

(** Two of the three points coincide and the helper does not return 0:
    the ray from the vertex to itself has direction 0, and the result is
    the direction of the other ray. *)
Example calculateAngle_zero_length_ray : calculateAngle origin origin (0, 1) = 90.
Proof.
  pose proof PI_RGT_0 as Hpi.
  rewrite calculateAngle_directions, direction_self.
  assert (direction origin (0, 1) = 90) as ->.
  { unfold direction, origin. cbn [fst snd]. rewrite !Rminus_0_r.
    unfold atan2.
    destruct (Rlt_dec 0 0) as [H | _]; [lra |].
    destruct (Rlt_dec 0 1) as [_ | H]; [| lra].
    field. lra. }
  rewrite Rminus_0_r, Rabs_pos_eq by lra.
  unfold fold180. now rewrite Rgtb_false by lra.
Qed.

(** With one ray of length zero the helper returns the absolute
    direction of the other ray. *)
Lemma calculateAngle_zero_ray (b p : Point) :
  calculateAngle b b p = Rabs (direction b p) /\
  calculateAngle p b b = Rabs (direction b p).
Proof.
  pose proof (direction_bound b p) as [Hl Hu].
  assert (Rabs (direction b p) <= 180) as Habs by (apply Rabs_le; lra).
  rewrite !calculateAngle_directions, direction_self.
  rewrite Rminus_0_r, Rminus_0_l, Rabs_Ropp.
  unfold fold180. now rewrite Rgtb_false by lra.
Qed.

(** *** The angle helper

    C9.  For any three points [a], [b], [c], [calculateAngle a b c] is the
    absolute difference between the direction from [b] to [c] and the
    direction from [b] to [a], in degrees, with a value over 180 replaced
    by 360 minus itself; the result always lies in [0, 180]; it is 0 when
    the three points coincide and when the two rays coincide.  When only
    one of the rays has length zero the result is the absolute direction
    of the other ray, which need not be 0.  The helper is a total
    function of its arguments. *)
Theorem calculateAngle_spec (a b c : Point) :
  calculateAngle a b c = fold180 (Rabs (direction b c - direction b a)) /\
  0 <= calculateAngle a b c <= 180 /\
  calculateAngle b b b = 0 /\
  calculateAngle a b a = 0 /\
  calculateAngle b b c = Rabs (direction b c) /\
  calculateAngle a b b = Rabs (direction b a).
Proof.
  split; [apply calculateAngle_directions |].
  split; [apply calculateAngle_range |].
  split; [apply calculateAngle_coincident |].
  split; [apply calculateAngle_same_ray |].
  split; apply calculateAngle_zero_ray.
Qed.

(** ** Measurements on the synthetic poses *)

Lemma land_pose_shoulder_l (elbow body : R) : land (pose elbow body) 11 = unitPoint elbow.
Proof. reflexivity. Qed.

Lemma land_pose_shoulder_r (elbow body : R) : land (pose elbow body) 12 = unitPoint elbow.
Proof. reflexivity. Qed.

Lemma land_pose_ankle_r (elbow body : R) :
  land (pose elbow body) 28 = unitPoint (elbow - body).
Proof. reflexivity. Qed.

Lemma armElbowAngle_pose (elbow body : R) :
  0 <= elbow <= 180 -> armElbowAngle (pose elbow body) = elbow.
Proof.
  intros H. unfold armElbowAngle. cbv zeta.
  change (land (pose elbow body) 11) with (unitPoint elbow).
  change (land (pose elbow body) 12) with (unitPoint elbow).
  change (land (pose elbow body) 13) with origin.
  change (land (pose elbow body) 14) with origin.
  change (land (pose elbow body) 15) with ((1, 0) : Point).
  change (land (pose elbow body) 16) with ((1, 0) : Point).
  rewrite calculateAngle_unitPoint by exact H.
  apply Rmin_left. lra.
Qed.

Lemma bodyLineAngle_pose (elbow body : R) :
  0 <= elbow <= 180 -> 0 <= body <= 180 -> -180 < elbow - body ->
  bodyLineAngle (pose elbow body) = body.
Proof.
  intros He Hb Hd. unfold bodyLineAngle.
  change (land (pose elbow body) 12) with (unitPoint elbow).
  change (land (pose elbow body) 24) with origin.
  change (land (pose elbow body) 28) with (unitPoint (elbow - body)).
  rewrite calculateAngle_directions.
  rewrite !direction_unitPoint by lra.
  replace (elbow - body - elbow) with (- body) by ring.
  rewrite Rabs_Ropp, Rabs_pos_eq by lra.
  unfold fold180. now rewrite Rgtb_false by lra.
Qed.

(** An empty landmark array measures 0 everywhere. *)
Lemma land_nil (idx : nat) : land [] idx = origin.
Proof. unfold land, coord. now destruct idx. Qed.

Lemma armElbowAngle_nil : armElbowAngle [] = 0.
Proof.
  unfold armElbowAngle. cbv zeta. rewrite !land_nil.
  rewrite calculateAngle_coincident. apply Rmin_left. lra.
Qed.

Lemma bodyLineAngle_nil : bodyLineAngle [] = 0.
Proof. unfold bodyLineAngle. rewrite !land_nil. apply calculateAngle_coincident. Qed.

(** ** The counting invariant *)

(** C1.  In every reachable counting state, that is, after any sequence
    of frame updates by any of the exercise processors starting from the
    all-zero state, [0 <= goodReps <= reps]. *)
Theorem goodReps_le_reps (m : ExerciseMetrics) (lastRepAt : R) :
  reachable m lastRepAt -> (0 <= goodReps m <= reps m)%Z.
Proof.
  induction 1 as [| e landmarks now m lastRepAt Hreach IH].
  - cbn. lia.
  - destruct (processor_outcome e landmarks m now lastRepAt) as [H | H].
    + destruct H as (Hr & Hg & _). rewrite Hr, Hg. exact IH.
    + destruct H as (_ & Hr & Hg & _). rewrite Hr.
      destruct Hg as [Hg | Hg]; rewrite Hg; lia.
Qed.

(** ** The bicep-curl update, region by region *)

Lemma bicepCurl_step_extended (a : R) (prev : ExerciseMetrics) (now lastRepAt : R) :
  a > 150 ->
  bicepCurl_step a prev now lastRepAt = (set_isFullyUp true (set_stage down prev), lastRepAt).
Proof.
  intros H. unfold bicepCurl_step. cbv zeta.
  rewrite Rgtb_true, (Rltb_false a 50) by lra.
  now rewrite andb_false_r.
Qed.

Lemma bicepCurl_step_between (a : R) (prev : ExerciseMetrics) (now lastRepAt : R) :
  50 <= a <= 150 -> bicepCurl_step a prev now lastRepAt = (prev, lastRepAt).
Proof.
  intros H. unfold bicepCurl_step. cbv zeta.
  rewrite Rgtb_false, (Rltb_false a 50) by lra.
  now rewrite andb_false_r.
Qed.

Lemma bicepCurl_step_deep (a : R) (prev : ExerciseMetrics) (now lastRepAt : R) :
  stage prev = down -> a < 40 ->
  bicepCurl_step a prev now lastRepAt =
    tryCount (set_isDeepEnough true (set_stage up prev)) now 350 lastRepAt.
Proof.
  intros Hs H. unfold bicepCurl_step. cbv zeta.
  rewrite Hs, Rgtb_false, !Rltb_true by lra. reflexivity.
Qed.

Lemma bicepCurl_step_shallow (a : R) (prev : ExerciseMetrics) (now lastRepAt : R) :
  stage prev = down -> 40 <= a < 50 ->
  bicepCurl_step a prev now lastRepAt =
    tryCount (set_feedback ["Curl a little higher."%string] (set_stage up prev))
      now 350 lastRepAt.
Proof.
  intros Hs H. unfold bicepCurl_step. cbv zeta.
  rewrite Hs, Rgtb_false, (Rltb_true a 50), (Rltb_false a 40) by lra. reflexivity.
Qed.

Lemma nextBicepCurl_pose (elbow body : R) (prev : ExerciseMetrics) (now lastRepAt : R) :
  0 <= elbow <= 180 ->
  nextBicepCurl (pose elbow body) prev now lastRepAt =
    bicepCurl_step elbow prev now lastRepAt.
Proof. intros H. unfold nextBicepCurl. cbv zeta. now rewrite armElbowAngle_pose. Qed.

(** One full curl, accepted by the gate and counted as a good one. *)
Example afterOneCurl_value :
  afterOneCurl =
  (mkMetrics 1 up 1 ["Good form!"%string] noFlags (Some 0%Z) (Some false), 1000).
Proof.
  unfold afterOneCurl. cbv zeta.
  rewrite !nextBicepCurl_pose by lra.
  rewrite (bicepCurl_step_extended 170) by lra. cbn [fst snd].
  rewrite bicepCurl_step_deep by (reflexivity || lra).
  rewrite tryCount_accepts by lra. reflexivity.
Qed.

Lemma goodReps_le_reps_witness :
  (0 <= goodReps (fst afterOneCurl) <= reps (fst afterOneCurl))%Z.
Proof.
  apply (goodReps_le_reps (fst afterOneCurl) (snd afterOneCurl)).
  unfold afterOneCurl. cbv zeta.
  apply (reachable_update bicep_curl).
  apply (reachable_update bicep_curl).
  apply reachable_base.
Defined.

(** ** The frame callback *)

Lemma onPoseResults_inactive (results : PoseResults) (s : Session) :
  isActiveRef s = false -> onPoseResults results s = s.
Proof. intros H. unfold onPoseResults. now rewrite H. Qed.

Lemma onPoseResults_processor (e : Exercise) (landmarks : Landmarks) (t : R) (s : Session) :
  isActiveRef s = true -> exerciseOfId (selectedKey s) = Some e ->
  onPoseResults (mkResults (Some landmarks) t) s =
    mkSession (fst (processorOf e landmarks (metricsRef s) t (lastRepAtRef s)))
              (selectedExerciseRef s) true
              (snd (processorOf e landmarks (metricsRef s) t (lastRepAtRef s))).
Proof.
  intros Ha He. unfold onPoseResults, exerciseProcessors. cbn [poseLandmarks clock].
  rewrite Ha, He. cbn [option_map].
  now destruct (processorOf e landmarks (metricsRef s) t (lastRepAtRef s)).
Qed.

Lemma onPoseResults_unknown (landmarks : Landmarks) (t : R) (s : Session) :
  exerciseOfId (selectedKey s) = None ->
  onPoseResults (mkResults (Some landmarks) t) s = s.
Proof.
  intros He. unfold onPoseResults, exerciseProcessors. cbn [poseLandmarks clock].
  rewrite He. cbn [option_map]. destruct s as [m sel act l]. cbn.
  now destruct act.
Qed.

Lemma onPoseResults_selection (results : PoseResults) (s : Session) :
  selectedExerciseRef (onPoseResults results s) = selectedExerciseRef s /\
  isActiveRef (onPoseResults results s) = isActiveRef s.
Proof.
  unfold onPoseResults.
  destruct (isActiveRef s) eqn:Ha, (poseLandmarks results); auto.
  destruct (exerciseProcessors (selectedKey s)) as [p |]; cbn; auto.
  destruct (p l (metricsRef s) (clock results) (lastRepAtRef s)); cbn; auto.
Qed.

Lemma selectedKey_onPoseResults (results : PoseResults) (s : Session) :
  selectedKey (onPoseResults results s) = selectedKey s.
Proof. unfold selectedKey. now rewrite (proj1 (onPoseResults_selection results s)). Qed.

(** A frame counts nothing, or it counts one repetition through the
    gate of the selected exercise. *)
Lemma onPoseResults_outcome (results : PoseResults) (s : Session) :
  notCounted (metricsRef s) (lastRepAtRef s) (counting (onPoseResults results s)) \/
  exists e, exerciseOfId (selectedKey s) = Some e /\
            countedOnce (cooldownOf e) (clock results) (metricsRef s) (lastRepAtRef s)
              (counting (onPoseResults results s)).
Proof.
  destruct results as [[landmarks |] t].
  - destruct (isActiveRef s) eqn:Ha.
    + destruct (exerciseOfId (selectedKey s)) as [e |] eqn:He.
      * rewrite (onPoseResults_processor e) by assumption.
        unfold counting. cbn [metricsRef lastRepAtRef clock].
        destruct (processor_outcome e landmarks (metricsRef s) t (lastRepAtRef s)) as [H | H].
        -- left. destruct H as (Hr & Hg & Hl). repeat split; assumption.
        -- right. exists e. split; [reflexivity |].
           destruct H as (Hc & Hr & Hg & Hl). repeat split; assumption.
      * rewrite onPoseResults_unknown by assumption. left. repeat split.
    + rewrite onPoseResults_inactive by assumption. left. repeat split.
  - left. unfold onPoseResults. cbn [poseLandmarks].
    destruct (isActiveRef s); repeat split.
Qed.

Lemma runFrames_cons (results : PoseResults) (frames : list PoseResults) (s : Session) :
  runFrames (results :: frames) s = runFrames frames (onPoseResults results s).
Proof. reflexivity. Qed.

Lemma runFrames_app (frames1 frames2 : list PoseResults) (s : Session) :
  runFrames (frames1 ++ frames2) s = runFrames frames2 (runFrames frames1 s).
Proof. unfold runFrames. apply fold_left_app. Qed.

Lemma selectedKey_runFrames (frames : list PoseResults) (s : Session) :
  selectedKey (runFrames frames s) = selectedKey s.
Proof.
  revert s. induction frames as [| f frames IH]; intros s; [reflexivity |].
  rewrite runFrames_cons, IH. apply selectedKey_onPoseResults.
Qed.

(** The gate's ref never moves back, and the counters never decrease. *)
Lemma onPoseResults_monotone (results : PoseResults) (s : Session) :
  lastRepAtRef s <= lastRepAtRef (onPoseResults results s) /\
  (reps (metricsRef s) <= reps (metricsRef (onPoseResults results s)))%Z /\
  (goodReps (metricsRef s) <= goodReps (metricsRef (onPoseResults results s)))%Z.
Proof.
  destruct (onPoseResults_outcome results s) as [H | (e & _ & H)];
    unfold notCounted, countedOnce, counting in H; cbn [fst snd] in H.
  - destruct H as (Hr & Hg & Hl). rewrite Hr, Hg, Hl. repeat split; try lia; lra.
  - destruct H as (Hc & Hr & Hg & Hl). pose proof (cooldownOf_nonneg e).
    rewrite Hr, Hl. repeat split; try lia; lra.
Qed.

Lemma runFrames_monotone (frames : list PoseResults) (s : Session) :
  lastRepAtRef s <= lastRepAtRef (runFrames frames s) /\
  (reps (metricsRef s) <= reps (metricsRef (runFrames frames s)))%Z /\
  (goodReps (metricsRef s) <= goodReps (metricsRef (runFrames frames s)))%Z.
Proof.
  revert s. induction frames as [| f frames IH]; intros s.
  - cbn. repeat split; try lia; lra.
  - rewrite runFrames_cons.
    destruct (IH (onPoseResults f s)) as (Hl & Hr & Hg).
    destruct (onPoseResults_monotone f s) as (Hl' & Hr' & Hg').
    repeat split; try lia; lra.
Qed.

Lemma onPoseResults_noDetection (t : R) (s : Session) :
  onPoseResults (noDetection t) s = s.
Proof.
  unfold onPoseResults, noDetection. cbn [poseLandmarks]. now destruct (isActiveRef s).
Qed.

(** *** Frames without landmarks

    C7.  A frame that carries no landmarks leaves the session exactly as
    it was: [reps], [goodReps] and [stage] are unchanged, and so are the
    feedback and the gate's ref. *)
Theorem no_detection_is_noop (t : R) (s : Session) :
  onPoseResults (noDetection t) s = s /\
  reps (metricsRef (onPoseResults (noDetection t) s)) = reps (metricsRef s) /\
  goodReps (metricsRef (onPoseResults (noDetection t) s)) = goodReps (metricsRef s) /\
  stage (metricsRef (onPoseResults (noDetection t) s)) = stage (metricsRef s) /\
  feedback (metricsRef (onPoseResults (noDetection t) s)) = feedback (metricsRef s).
Proof. rewrite onPoseResults_noDetection. repeat split. Qed.

(** ** Sessions and reachable counting states *)

(** Whatever happens to a session, its counting state is a reachable
    one. *)
Lemma handle_reachable (ev : Event) (s : Session) :
  reachable (metricsRef s) (lastRepAtRef s) ->
  reachable (metricsRef (handle ev s)) (lastRepAtRef (handle ev s)).
Proof.
  intros H. destruct ev as [[[landmarks |] t] | id | | |]; cbn [handle].
  - destruct (isActiveRef s) eqn:Ha.
    + destruct (exerciseOfId (selectedKey s)) as [e |] eqn:He.
      * rewrite (onPoseResults_processor e) by assumption.
        cbn [metricsRef lastRepAtRef]. now apply reachable_update.
      * now rewrite onPoseResults_unknown.
    + now rewrite onPoseResults_inactive.
  - change (mkResults None t) with (noDetection t).
    now rewrite onPoseResults_noDetection.
  - unfold selectExercise.
    destruct (option_eq_dec string_dec id (selectedExerciseRef s)); [exact H |].
    apply reachable_base.
  - exact H.
  - exact H.
  - apply reachable_base.
Qed.

Lemma runEvents_reachable (events : list Event) :
  reachable (metricsRef (runEvents events initialSession))
            (lastRepAtRef (runEvents events initialSession)).
Proof.
  unfold runEvents.
  assert (reachable (metricsRef initialSession) (lastRepAtRef initialSession)) as H
    by apply reachable_base.
  revert H. generalize initialSession.
  induction events as [| ev events IH]; intros s H; [exact H |].
  cbn [fold_left]. apply IH. now apply handle_reachable.
Qed.

(** ** Sessions on concrete exercises *)

Lemma activeSession_value (id : string) :
  activeSession id = mkSession base (Some id) true 0.
Proof.
  unfold activeSession, selectExercise, startWorkout, initialSession.
  cbn [selectedExerciseRef].
  destruct (option_eq_dec string_dec (Some id) None); [discriminate | reflexivity].
Qed.

Lemma curl_frame (landmarks : Landmarks) (t : R) (m : ExerciseMetrics) (lastRepAt : R) :
  onPoseResults (mkResults (Some landmarks) t)
    (mkSession m (Some "bicep_curl"%string) true lastRepAt) =
  mkSession (fst (bicepCurl_step (armElbowAngle landmarks) m t lastRepAt))
            (Some "bicep_curl"%string) true
            (snd (bicepCurl_step (armElbowAngle landmarks) m t lastRepAt)).
Proof. now rewrite (onPoseResults_processor bicep_curl). Qed.

Lemma curl_frameAt (elbow body t : R) (m : ExerciseMetrics) (lastRepAt : R) :
  0 <= elbow <= 180 ->
  onPoseResults (frameAt elbow body t)
    (mkSession m (Some "bicep_curl"%string) true lastRepAt) =
  mkSession (fst (bicepCurl_step elbow m t lastRepAt))
            (Some "bicep_curl"%string) true
            (snd (bicepCurl_step elbow m t lastRepAt)).
Proof. intros H. unfold frameAt. now rewrite curl_frame, armElbowAngle_pose. Qed.

(** Run one frame of a curl session whose measured angle is known. *)
Ltac curl_step :=
  first
    [ rewrite bicepCurl_step_extended by lra
    | rewrite bicepCurl_step_between by lra
    | rewrite bicepCurl_step_deep by (reflexivity || lra)
    | rewrite bicepCurl_step_shallow by (reflexivity || lra) ];
  first
    [ rewrite tryCount_accepts by lra
    | rewrite tryCount_rejects by lra
    | idtac ];
  cbn [fst snd set_isFullyUp set_isDeepEnough set_stage set_feedback set_formFlags
       set_reps set_goodReps formFlags isDeepEnough isFullyUp isBackStraight truthy
       andb stage reps goodReps feedback timer isTimerRunning noFlags base].

Lemma curlReady_value :
  curlReady =
  mkSession (mkMetrics 0 down 0 [] (mkFormFlags None (Some true) None) (Some 0%Z) (Some false))
            (Some "bicep_curl"%string) true 0.
Proof.
  unfold curlReady. rewrite activeSession_value.
  rewrite curl_frameAt by lra. curl_step. reflexivity.
Qed.

(** ** The cooldown gate and the debounce *)

Lemma tryCount_counts_iff (next : ExerciseMetrics) (now cd lastRepAt : R) :
  reps (fst (tryCount next now cd lastRepAt)) = (reps next + 1)%Z <-> now - lastRepAt > cd.
Proof.
  split; intros H.
  - destruct (Rle_or_lt (now - lastRepAt) cd) as [Hle | Hgt]; [| exact Hgt].
    rewrite tryCount_rejects in H by exact Hle. cbn in H. lia.
  - rewrite tryCount_accepts by exact H.
    destruct (truthy _ && truthy _); reflexivity.
Qed.

Lemma countedBy_cases (results : PoseResults) (s : Session) :
  (countedBy results s = 0%Z /\
   lastRepAtRef (onPoseResults results s) = lastRepAtRef s) \/
  (countedBy results s = 1%Z /\
   lastRepAtRef (onPoseResults results s) = clock results /\
   exists e, exerciseOfId (selectedKey s) = Some e /\
             clock results - lastRepAtRef s > cooldownOf e).
Proof.
  unfold countedBy.
  destruct (onPoseResults_outcome results s) as [H | (e & He & H)];
    unfold notCounted, countedOnce, counting in H; cbn [fst snd] in H.
  - left. destruct H as (Hr & _ & Hl). split; [lia | exact Hl].
  - right. destruct H as (Hc & Hr & _ & Hl). split; [lia |]. split; [exact Hl |].
    exists e. split; assumption.
Qed.

(** Frames that add nothing to the count leave the gate's ref alone. *)
Lemma runFrames_uncounted (frames : list PoseResults) (s : Session) :
  reps (metricsRef (runFrames frames s)) = reps (metricsRef s) ->
  lastRepAtRef (runFrames frames s) = lastRepAtRef s.
Proof.
  revert s. induction frames as [| f frames IH]; intros s H; [reflexivity |].
  rewrite runFrames_cons in *.
  destruct (runFrames_monotone frames (onPoseResults f s)) as (_ & Hr & _).
  destruct (onPoseResults_monotone f s) as (_ & Hr' & _).
  destruct (countedBy_cases f s) as [(Hc & Hl) | (Hc & _)]; unfold countedBy in Hc.
  - rewrite IH by lia. exact Hl.
  - lia.
Qed.

Ltac curl_run :=
  repeat (rewrite curl_frameAt by lra; curl_step).

(** C2, as the code has it.  The gate counts a candidate repetition if
    and only if [now - lastRepAt > cooldownMs]; a rejected candidate is
    returned as the processor left it (stage, flags and feedback kept)
    and the gate's ref is not written.  Of two frames of one session
    whose clock readings lie less than the cooldown of the selected
    exercise apart, at most one is counted, whatever frames lie between
    them: when the first is counted the second is not, so exactly one
    is; when the first is itself rejected, both may be dropped. *)
Theorem cooldown_gate_debounce
  (next : ExerciseMetrics) (now cd lastRepAt : R)
  (s : Session) (e : Exercise) (first : PoseResults) (between : list PoseResults)
  (second : PoseResults) :
  exerciseOfId (selectedKey s) = Some e ->
  clock second - clock first < cooldownOf e ->
  (reps (fst (tryCount next now cd lastRepAt)) = (reps next + 1)%Z
     <-> now - lastRepAt > cd) /\
  (~ now - lastRepAt > cd -> tryCount next now cd lastRepAt = (next, lastRepAt)) /\
  (countedBy first s
     + countedBy second (runFrames between (onPoseResults first s)) <= 1)%Z /\
  (countedBy first s = 1%Z ->
   countedBy second (runFrames between (onPoseResults first s)) = 0%Z /\
   lastRepAtRef (onPoseResults second (runFrames between (onPoseResults first s))) =
     lastRepAtRef (runFrames between (onPoseResults first s))).
Proof.
  intros He Hclose.
  split; [apply tryCount_counts_iff |].
  split; [intros Hn; apply tryCount_rejects; lra |].
  set (s1 := onPoseResults first s). set (s2 := runFrames between s1).
  assert (countedBy first s = 1%Z ->
          countedBy second s2 = 0%Z /\
          lastRepAtRef (onPoseResults second s2) = lastRepAtRef s2) as Hsecond.
  { intros Hfirst.
    destruct (countedBy_cases first s) as [(Hc & _) | (_ & Hl & _)]; [lia |].
    destruct (countedBy_cases second s2) as [Hno | (_ & _ & e' & He' & Hgate)];
      [exact Hno |].
    exfalso.
    unfold s2 in He'. rewrite selectedKey_runFrames in He'.
    unfold s1 in He'. rewrite selectedKey_onPoseResults, He in He'.
    injection He' as <-.
    destruct (runFrames_monotone between s1) as (Hmono & _).
    fold s2 in Hmono. fold s1 in Hl. lra. }
  split; [| exact Hsecond].
  destruct (countedBy_cases first s) as [(Hc & _) | (Hc & _)].
  - destruct (countedBy_cases second s2) as [(Hc' & _) | (Hc' & _)]; lia.
  - destruct (Hsecond Hc) as (Hc' & _). lia.
Qed.

Lemma cooldown_gate_debounce_witness :
  countedBy (frameAt 30 170 1000) curlReady = 1%Z /\
  countedBy (frameAt 30 170 1200)
    (runFrames [frameAt 170 170 1100] (onPoseResults (frameAt 30 170 1000) curlReady)) = 0%Z.
Proof.
  assert (exerciseOfId (selectedKey curlReady) = Some bicep_curl) as He
    by (rewrite curlReady_value; reflexivity).
  assert (clock (frameAt 30 170 1200) - clock (frameAt 30 170 1000) < cooldownOf bicep_curl)
    as Hclose by (cbn; lra).
  assert (countedBy (frameAt 30 170 1000) curlReady = 1%Z) as Hfirst.
  { unfold countedBy. rewrite curlReady_value. curl_run. reflexivity. }
  split; [exact Hfirst |].
  exact (proj1 (proj2 (proj2 (proj2
    (cooldown_gate_debounce base 0 0 0 curlReady bicep_curl (frameAt 30 170 1000)
       [frameAt 170 170 1100] (frameAt 30 170 1200) He Hclose))) Hfirst)).
Defined.

(** Two candidate repetitions 100 ms apart of which none is counted: a
    curl is counted at 1000 ms; the flexed frames at 1200 ms and at
    1300 ms both arrive in stage [down] below 50 degrees, and both fall
    within 350 ms of the counted one. *)
Lemma two_close_candidates_none_counted :
  let s0 := onPoseResults (frameAt 30 170 1000) curlReady in
  let s1 := onPoseResults (frameAt 170 170 1100) s0 in
  let s2 := onPoseResults (frameAt 30 170 1200) s1 in
  let s3 := onPoseResults (frameAt 170 170 1250) s2 in
  reps (metricsRef s0) = 1%Z /\
  stage (metricsRef s1) = down /\ stage (metricsRef s3) = down /\
  clock (frameAt 30 170 1300) - clock (frameAt 30 170 1200) < cooldownOf bicep_curl /\
  countedBy (frameAt 30 170 1200) s1 = 0%Z /\
  countedBy (frameAt 30 170 1300) s3 = 0%Z /\
  (countedBy (frameAt 30 170 1200) s1 + countedBy (frameAt 30 170 1300) s3 <> 1)%Z.
Proof.
  cbv zeta. unfold countedBy. rewrite curlReady_value. curl_run.
  cbn. repeat split; try reflexivity; try lra; lia.
Qed.

(** ** The first candidate after a reset *)

Lemma fresh_initialSession : fresh initialSession.
Proof. split; reflexivity. Qed.

Lemma fresh_resetWorkout (s : Session) : fresh (resetWorkout s).
Proof. split; reflexivity. Qed.

Lemma fresh_selectExercise (id : option string) (s : Session) :
  id <> selectedExerciseRef s -> fresh (selectExercise id s).
Proof.
  intros H. unfold selectExercise.
  destruct (option_eq_dec string_dec id (selectedExerciseRef s)); [contradiction |].
  split; reflexivity.
Qed.

Lemma fresh_startWorkout (s : Session) : fresh s -> fresh (startWorkout s).
Proof. intros [Hm Hl]. split; assumption. Qed.

(** C10.  After creation or reset the gate's ref is 0 and stays 0 for as
    long as no repetition has been accepted; the first candidate is
    therefore counted if and only if its clock reading exceeds the
    cooldown, and a first candidate at [now <= cooldownMs] is dropped
    with the ref left at 0. *)
Theorem first_candidate_needs_cooldown
  (s : Session) (frames : list PoseResults)
  (next : ExerciseMetrics) (now cd : R) :
  fresh s ->
  reps (metricsRef (runFrames frames s)) = 0%Z ->
  lastRepAtRef (runFrames frames s) = 0 /\
  (reps (fst (tryCount next now cd (lastRepAtRef (runFrames frames s)))) = (reps next + 1)%Z
     <-> now > cd) /\
  (now <= cd ->
   tryCount next now cd (lastRepAtRef (runFrames frames s)) = (next, 0)).
Proof.
  intros [Hm Hl] Hreps.
  assert (lastRepAtRef (runFrames frames s) = 0) as Hlast.
  { rewrite runFrames_uncounted; [exact Hl |]. rewrite Hreps, Hm. reflexivity. }
  rewrite Hlast. split; [reflexivity |]. split.
  - rewrite tryCount_counts_iff. split; intros H; lra.
  - intros H. apply tryCount_rejects. lra.
Qed.

Lemma first_candidate_needs_cooldown_witness :
  tryCount (set_isDeepEnough true (set_stage up (metricsRef curlReady))) 300 350
    (lastRepAtRef (runFrames [frameAt 170 170 500; frameAt 100 170 600]
                     (startWorkout (resetWorkout curlReady)))) =
  (set_isDeepEnough true (set_stage up (metricsRef curlReady)), 0).
Proof.
  refine (proj2 (proj2 (first_candidate_needs_cooldown
    (startWorkout (resetWorkout curlReady))
    [frameAt 170 170 500; frameAt 100 170 600]
    (set_isDeepEnough true (set_stage up (metricsRef curlReady))) 300 350 _ _)) _).
  - apply fresh_startWorkout, fresh_resetWorkout.
  - rewrite curlReady_value. unfold runFrames, startWorkout, resetWorkout.
    cbn [fold_left selectedExerciseRef metricsRef lastRepAtRef].
    curl_run. reflexivity.
  - lra.
Defined.

(** ** The curl scenario *)

(** The scenario with the shallow curl delivered at clock reading 0 and
    the deep curl at 400: the shallow curl is dropped by the gate, only
    the deep one counts. *)
Lemma curl_scenario_at_zero :
  reps (metricsRef (runFrames (curlFrames 0 0 0 200 400) (activeSession "bicep_curl"))) = 1%Z /\
  goodReps (metricsRef (runFrames (curlFrames 0 0 0 200 400) (activeSession "bicep_curl"))) = 1%Z /\
  ~ (reps (metricsRef (runFrames (curlFrames 0 0 0 200 400) (activeSession "bicep_curl"))) = 2%Z /\
     goodReps (metricsRef (runFrames (curlFrames 0 0 0 200 400) (activeSession "bicep_curl"))) = 1%Z).
Proof.
  unfold curlFrames, runFrames. cbn [fold_left].
  rewrite activeSession_value. curl_run.
  cbn. repeat split; try reflexivity. intros [H _]. discriminate.
Qed.

(** C3, as the code has it.  On a fresh bicep-curl session, frames whose
    combined elbow angle is 170, 160, 45, 170 and 35 degrees, the 45
    degree frame delivered at a clock reading [t3] above the 350 ms
    cooldown and the 35 degree frame 400 ms after it, leave [reps = 2]
    and [goodReps = 1]. *)
Theorem curl_scenario
  (l1 l2 l3 l4 l5 : Landmarks) (t1 t2 t3 t4 : R) :
  armElbowAngle l1 = 170 -> armElbowAngle l2 = 160 -> armElbowAngle l3 = 45 ->
  armElbowAngle l4 = 170 -> armElbowAngle l5 = 35 ->
  t3 > 350 ->
  reps (metricsRef
          (runFrames [mkResults (Some l1) t1; mkResults (Some l2) t2;
                      mkResults (Some l3) t3; mkResults (Some l4) t4;
                      mkResults (Some l5) (t3 + 400)]
             (activeSession "bicep_curl"))) = 2%Z /\
  goodReps (metricsRef
              (runFrames [mkResults (Some l1) t1; mkResults (Some l2) t2;
                          mkResults (Some l3) t3; mkResults (Some l4) t4;
                          mkResults (Some l5) (t3 + 400)]
                 (activeSession "bicep_curl"))) = 1%Z.
Proof.
  intros H1 H2 H3 H4 H5 Ht.
  unfold runFrames. cbn [fold_left]. rewrite activeSession_value.
  rewrite curl_frame, H1. curl_step.
  rewrite curl_frame, H2. curl_step.
  rewrite curl_frame, H3. curl_step.
  rewrite curl_frame, H4. curl_step.
  rewrite curl_frame, H5. curl_step.
  split; reflexivity.
Qed.

Lemma curl_scenario_witness :
  reps (metricsRef (runFrames (curlFrames 900 950 1000 1200 (1000 + 400))
                      (activeSession "bicep_curl"))) = 2%Z /\
  goodReps (metricsRef (runFrames (curlFrames 900 950 1000 1200 (1000 + 400))
                          (activeSession "bicep_curl"))) = 1%Z.
Proof.
  apply (curl_scenario (pose 170 170) (pose 160 170) (pose 45 170) (pose 170 170)
           (pose 35 170) 900 950 1000 1200);
    try (apply armElbowAngle_pose; lra); lra.
Defined.

(** ** Hysteresis *)

(** Split every comparison of the goal and move the outcomes to [Prop]. *)
Ltac Rcompare :=
  repeat match goal with
    | |- context [Rltb ?a ?b] => destruct (Rltb a b) eqn:?
    | |- context [Rgtb ?a ?b] => destruct (Rgtb a b) eqn:?
    end;
  Rreflect.

(** While the tracked quantity crosses neither relaxed threshold a
    processor does not consult the gate and does not move the stage. *)
Lemma processor_between (e : Exercise) (t : Thresholds) (landmarks : Landmarks)
  (m : ExerciseMetrics) (now lastRepAt : R) :
  thresholdsOf e = Some t ->
  betweenThresholds t (combined t landmarks) ->
  reps (fst (processorOf e landmarks m now lastRepAt)) = reps m /\
  goodReps (fst (processorOf e landmarks m now lastRepAt)) = goodReps m /\
  stage (fst (processorOf e landmarks m now lastRepAt)) = stage m /\
  snd (processorOf e landmarks m now lastRepAt) = lastRepAt.
Proof.
  intros Ht Hb.
  destruct e; cbn [thresholdsOf] in Ht; try discriminate; injection Ht as <-;
    unfold betweenThresholds in Hb; cbv beta iota delta [restAbove T_enter T_exit combined] in Hb;
    cbn [processorOf]; unfold_processors.
  all: try (pose proof (Rmin_l (leftKneeAngle landmarks) (rightKneeAngle landmarks));
            pose proof (Rmin_r (leftKneeAngle landmarks) (rightKneeAngle landmarks));
            assert (Rmin (leftKneeAngle landmarks) (rightKneeAngle landmarks)
                      = leftKneeAngle landmarks
                    \/ Rmin (leftKneeAngle landmarks) (rightKneeAngle landmarks)
                      = rightKneeAngle landmarks) as Hmin
              by (apply Rmin_case; auto)).
  all: Rcompare; try lra;
    try (destruct Hmin; lra);
    rewrite ?andb_false_r; cbn [andb orb];
    try (destruct (Stage_eqb (stage m) _));
    cbn; repeat split; reflexivity.
Qed.

Lemma strictlyBetween_between (t : Thresholds) (v : R) :
  strictlyBetween t v -> betweenThresholds t v.
Proof.
  unfold strictlyBetween, betweenThresholds. destruct (restAbove t); lra.
Qed.

Lemma In_firstn {A : Type} (k : nat) (l : list A) (a : A) :
  In a (firstn k l) -> In a l.
Proof.
  revert l. induction k as [| k IH]; intros [| b l] H; cbn in *; try contradiction.
  destruct H as [H | H]; [left; exact H | right; apply IH; exact H].
Qed.

Lemma thresholdsOfId_exercise (id : string) (t : Thresholds) :
  thresholdsOfId id = Some t ->
  exists e, exerciseOfId id = Some e /\ thresholdsOf e = Some t.
Proof.
  unfold thresholdsOfId. destruct (exerciseOfId id) as [e |]; [| discriminate].
  intros H. now exists e.
Qed.

Lemma onPoseResults_between (results : PoseResults) (s : Session) (t : Thresholds) :
  thresholdsOfId (selectedKey s) = Some t ->
  (forall landmarks, poseLandmarks results = Some landmarks ->
                     betweenThresholds t (combined t landmarks)) ->
  reps (metricsRef (onPoseResults results s)) = reps (metricsRef s) /\
  goodReps (metricsRef (onPoseResults results s)) = goodReps (metricsRef s) /\
  stage (metricsRef (onPoseResults results s)) = stage (metricsRef s) /\
  lastRepAtRef (onPoseResults results s) = lastRepAtRef s.
Proof.
  intros Ht Hb. destruct (thresholdsOfId_exercise _ _ Ht) as (e & He & Hte).
  destruct results as [[landmarks |] c].
  - destruct (isActiveRef s) eqn:Ha.
    + rewrite (onPoseResults_processor e) by assumption.
      cbn [metricsRef lastRepAtRef].
      apply (processor_between e t); [exact Hte | apply Hb; reflexivity].
    + rewrite onPoseResults_inactive by assumption. repeat split.
  - change (mkResults None c) with (noDetection c).
    rewrite onPoseResults_noDetection. repeat split.
Qed.

(** C4.  For every repetition exercise, frames whose combined quantity
    stays between the two relaxed thresholds of the selected exercise,
    crossing neither of them, produce no repetition: after every prefix
    of the sequence [reps] and [goodReps] (and the stage and the gate's
    ref) are what they were at the start. *)
Theorem no_reps_between_thresholds
  (s : Session) (t : Thresholds) (frames : list PoseResults) (k : nat) :
  thresholdsOfId (selectedKey s) = Some t ->
  (forall results landmarks,
     In results frames -> poseLandmarks results = Some landmarks ->
     betweenThresholds t (combined t landmarks)) ->
  reps (metricsRef (runFrames (firstn k frames) s)) = reps (metricsRef s) /\
  goodReps (metricsRef (runFrames (firstn k frames) s)) = goodReps (metricsRef s) /\
  stage (metricsRef (runFrames (firstn k frames) s)) = stage (metricsRef s) /\
  lastRepAtRef (runFrames (firstn k frames) s) = lastRepAtRef s.
Proof.
  intros Ht Hb.
  assert (forall results landmarks,
            In results (firstn k frames) -> poseLandmarks results = Some landmarks ->
            betweenThresholds t (combined t landmarks)) as Hpre
    by (intros r l Hin; apply Hb; now apply In_firstn in Hin).
  clear Hb. revert s Ht Hpre.
  induction (firstn k frames) as [| f prefix IH]; intros s Ht Hpre.
  - repeat split.
  - rewrite runFrames_cons.
    destruct (onPoseResults_between f s t Ht) as (Hr & Hg & Hs & Hl).
    { intros l Hl. apply (Hpre f l); [left; reflexivity | exact Hl]. }
    destruct (IH (onPoseResults f s)) as (Hr' & Hg' & Hs' & Hl').
    { now rewrite selectedKey_onPoseResults. }
    { intros r l Hin. apply Hpre. right. exact Hin. }
    rewrite Hr', Hg', Hs', Hl'. repeat split; assumption.
Qed.

Lemma no_reps_between_thresholds_witness :
  reps (metricsRef (runFrames
          (firstn 3 [frameAt 60 170 1000; frameAt 140 170 1500; frameAt 55 170 2000;
                     frameAt 149 170 2500])
          curlReady)) = reps (metricsRef curlReady).
Proof.
  refine (proj1 (no_reps_between_thresholds curlReady
                   (mkThresholds armElbowAngle true 150 50 350) _ 3 _ _)).
  - rewrite curlReady_value. reflexivity.
  - intros results landmarks Hin Hlm.
    unfold betweenThresholds. cbn [restAbove T_exit T_enter combined].
    cbn [In] in Hin.
    destruct Hin as [<- | [<- | [<- | [<- | []]]]];
      injection Hlm as <-; rewrite armElbowAngle_pose by lra; lra.
Defined.

(** ** Feedback *)







(** The earlier revision started every bicep-curl update from an empty
    list. *)
Lemma earlier_bicepCurl_feedback (landmarks : Landmarks) (prev : ExerciseMetrics)
  (now lastRepAt : R) :
  feedback (fst (Earlier.nextBicepCurl landmarks prev now lastRepAt)) = [].
Proof.
  unfold Earlier.nextBicepCurl, Earlier.bicepCurl_step, Earlier.tryCount. cbv zeta.
  repeat match goal with
    | |- context [if ?b then _ else _] => destruct b
    end; reflexivity.
Qed.

(** ** Push-ups: posture *)

Lemma pushups_frame_pose (elbow body : R) (prev : ExerciseMetrics) (now lastRepAt : R) :
  0 <= elbow <= 180 -> 0 <= body <= 180 -> -180 < elbow - body ->
  nextPushups (pose elbow body) prev now lastRepAt =
    pushups_step elbow body prev now lastRepAt.
Proof.
  intros He Hb Hd. unfold nextPushups. cbv zeta.
  now rewrite armElbowAngle_pose, bodyLineAngle_pose.
Qed.

(** With the body outside the band a frame counts nothing. *)
Lemma pushups_out_of_band (landmarks : Landmarks) (prev : ExerciseMetrics)
  (now lastRepAt : R) :
  bodyLineAngle landmarks < 155 \/ bodyLineAngle landmarks > 205 ->
  sameCount prev lastRepAt (nextPushups landmarks prev now lastRepAt).
Proof.
  intros Hout. unfold sameCount, nextPushups, pushups_step. cbv zeta.
  assert ((bodyLineAngle landmarks <? 155) || (bodyLineAngle landmarks >? 205) = true) as ->.
  { destruct Hout as [H | H]; [rewrite Rltb_true by exact H | rewrite Rgtb_true by exact H].
    - reflexivity.
    - apply orb_true_r. }
  destruct (Stage_eqb (stage prev) up); Rcompare; try lra; cbn; repeat split.
Qed.

(** In stage [down] a frame whose elbows are not extended past 150
    counts nothing and leaves the stage, whatever the posture. *)
Lemma pushups_down_stays (landmarks : Landmarks) (prev : ExerciseMetrics)
  (now lastRepAt : R) :
  stage prev = down -> armElbowAngle landmarks <= 150 ->
  stage (fst (nextPushups landmarks prev now lastRepAt)) = down /\
  sameCount prev lastRepAt (nextPushups landmarks prev now lastRepAt).
Proof.
  intros Hs He. unfold sameCount, nextPushups, pushups_step. cbv zeta.
  rewrite Hs, (Rgtb_false _ 150) by exact He. cbn [Stage_eqb andb].
  destruct ((bodyLineAngle landmarks <? 155) || (bodyLineAngle landmarks >? 205));
    cbn; repeat split; assumption.
Qed.

Lemma runPushups_out_of_band (frames : list (Landmarks * R)) (st : ExerciseMetrics * R) :
  Forall (fun frame => bodyLineAngle (fst frame) < 155 \/ bodyLineAngle (fst frame) > 205)
         frames ->
  sameCount (fst st) (snd st) (runPushups frames st).
Proof.
  intros Hall. revert st.
  induction Hall as [| frame frames Hframe _ IH]; intros st.
  - unfold runPushups, sameCount. cbn [fold_left]. repeat split.
  - unfold runPushups in *. cbn [fold_left].
    destruct (pushups_out_of_band (fst frame) (fst st) (snd frame) (snd st) Hframe)
      as (Hr & Hg & Hl).
    destruct (IH (nextPushups (fst frame) (fst st) (snd frame) (snd st)))
      as (Hr' & Hg' & Hl').
    unfold sameCount. rewrite Hr', Hg', Hl'. repeat split; assumption.
Qed.

Lemma runPushups_down_stays (frames : list (Landmarks * R)) (st : ExerciseMetrics * R) :
  stage (fst st) = down ->
  Forall (fun frame => armElbowAngle (fst frame) <= 150) frames ->
  stage (fst (runPushups frames st)) = down /\
  sameCount (fst st) (snd st) (runPushups frames st).
Proof.
  intros Hs Hall. revert st Hs.
  induction Hall as [| frame frames Hframe _ IH]; intros st Hs.
  - unfold runPushups, sameCount. cbn [fold_left]. repeat split; assumption.
  - unfold runPushups in *. cbn [fold_left].
    destruct (pushups_down_stays (fst frame) (fst st) (snd frame) (snd st) Hs Hframe)
      as (Hs' & Hr & Hg & Hl).
    destruct (IH (nextPushups (fst frame) (fst st) (snd frame) (snd st)) Hs')
      as (Hs'' & Hr' & Hg' & Hl').
    unfold sameCount. rewrite Hr', Hg', Hl'. repeat split; assumption.
Qed.

(** A downward crossing moves the stage to [down], counted or not. *)
Lemma pushups_crossing_stage (landmarks : Landmarks) (prev : ExerciseMetrics)
  (now lastRepAt : R) :
  stage prev = up -> armElbowAngle landmarks < 110 ->
  stage (fst (nextPushups landmarks prev now lastRepAt)) = down.
Proof.
  intros Hs He. unfold nextPushups, pushups_step. cbv zeta.
  rewrite Hs, (Rgtb_false _ 150), (Rltb_true _ 110) by lra.
  cbn [Stage_eqb andb].
  destruct ((bodyLineAngle landmarks <? 155) || (bodyLineAngle landmarks >? 205));
    destruct (armElbowAngle landmarks <? 100); cbn [truthy isBackStraight formFlags
      set_isBackStraight set_isFullyUp set_isDeepEnough set_stage set_feedback
      set_formFlags fst stage];
    try reflexivity; unfold tryCount;
    repeat match goal with
      | |- context [if ?b then _ else _] => destruct b
      end; reflexivity.
Qed.

(** After the elbows have been extended again, a downward crossing with
    the body inside the band is counted when the gate is open. *)
Lemma pushups_next_repetition (top crossing : Landmarks) (st : ExerciseMetrics * R)
  (t1 t2 : R) :
  armElbowAngle top > 150 ->
  armElbowAngle crossing < 110 ->
  155 <= bodyLineAngle crossing <= 205 ->
  t2 - snd st > 450 ->
  reps (fst (runPushups [(top, t1); (crossing, t2)] st)) = (reps (fst st) + 1)%Z.
Proof.
  intros Ht Hc Hb Hgate. unfold runPushups. cbn [fold_left fst snd].
  assert (stage (fst (nextPushups top (fst st) t1 (snd st))) = up /\
          reps (fst (nextPushups top (fst st) t1 (snd st))) = reps (fst st) /\
          snd (nextPushups top (fst st) t1 (snd st)) = snd st) as (Hs & Hr & Hl).
  { unfold nextPushups, pushups_step. cbv zeta.
    rewrite (Rgtb_true _ 150), (Rltb_false _ 110) by lra.
    rewrite andb_false_r.
    destruct ((bodyLineAngle top <? 155) || (bodyLineAngle top >? 205));
      cbn; repeat split. }
  revert Hs Hr Hl. generalize (nextPushups top (fst st) t1 (snd st)).
  intros st1 Hs Hr Hl.
  unfold nextPushups, pushups_step. cbv zeta.
  rewrite Hs, (Rltb_false _ 155), (Rgtb_false _ 205), (Rgtb_false _ 150),
    (Rltb_true _ 110) by lra.
  cbn [orb Stage_eqb andb].
  destruct (armElbowAngle crossing <? 100);
    cbn [truthy isBackStraight formFlags set_isBackStraight set_isFullyUp
         set_isDeepEnough set_stage set_feedback set_formFlags];
    rewrite tryCount_accepts by (rewrite Hl; lra);
    destruct (truthy _ && truthy _); cbn; lia.
Qed.

(** C6.  On a push-up frame whose body angle is outside the tolerance
    band, [isBackStraight] is [false] in the returned state, the
    feedback is a corrective advisory (the posture advisory, or the depth
    advisory when the frame is a shallow downward crossing), and nothing
    is counted: [reps], [goodReps] and the gate's ref are unchanged, also
    when the frame is a downward crossing of the relaxed threshold.
    Nothing is counted on the frames that follow as long as the body
    stays outside the band.  The withheld repetition is lost, not
    deferred: a downward crossing with the body outside the band still
    moves the stage to [down], so no later frame counts anything,
    whatever its posture, until the elbows have been extended past 150
    degrees again; after that a crossing with the body inside the band
    is counted as soon as the gate is open. *)
Theorem pushups_posture_blocks_count
  (landmarks : Landmarks) (prev : ExerciseMetrics) (now lastRepAt : R)
  (later : list (Landmarks * R)) :
  bodyLineAngle landmarks < 155 \/ bodyLineAngle landmarks > 205 ->
  isBackStraight (formFlags (fst (nextPushups landmarks prev now lastRepAt))) = Some false /\
  feedback (fst (nextPushups landmarks prev now lastRepAt)) =
    (if Stage_eqb (stage prev) up
        && (armElbowAngle landmarks <? 110) && negb (armElbowAngle landmarks <? 100)
     then ["Go a bit lower."%string]
     else ["Keep your body straight!"%string]) /\
  reps (fst (nextPushups landmarks prev now lastRepAt)) = reps prev /\
  goodReps (fst (nextPushups landmarks prev now lastRepAt)) = goodReps prev /\
  snd (nextPushups landmarks prev now lastRepAt) = lastRepAt /\
  (Forall (fun frame => bodyLineAngle (fst frame) < 155 \/ bodyLineAngle (fst frame) > 205)
          later ->
   sameCount prev lastRepAt (runPushups later (nextPushups landmarks prev now lastRepAt))) /\
  (stage prev = up -> armElbowAngle landmarks < 110 ->
   stage (fst (nextPushups landmarks prev now lastRepAt)) = down /\
   (Forall (fun frame => armElbowAngle (fst frame) <= 150) later ->
    stage (fst (runPushups later (nextPushups landmarks prev now lastRepAt))) = down /\
    sameCount prev lastRepAt
      (runPushups later (nextPushups landmarks prev now lastRepAt)) /\
    forall (top crossing : Landmarks) (t1 t2 : R),
      armElbowAngle top > 150 ->
      armElbowAngle crossing < 110 ->
      155 <= bodyLineAngle crossing <= 205 ->
      t2 - lastRepAt > 450 ->
      reps (fst (runPushups (later ++ [(top, t1); (crossing, t2)])
                   (nextPushups landmarks prev now lastRepAt)))
      = (reps prev + 1)%Z)).
Proof.
  intros Hout.
  destruct (pushups_out_of_band landmarks prev now lastRepAt Hout) as (Hr & Hg & Hl).
  assert (isBackStraight (formFlags (fst (nextPushups landmarks prev now lastRepAt)))
            = Some false /\
          feedback (fst (nextPushups landmarks prev now lastRepAt)) =
            (if Stage_eqb (stage prev) up
                && (armElbowAngle landmarks <? 110) && negb (armElbowAngle landmarks <? 100)
             then ["Go a bit lower."%string]
             else ["Keep your body straight!"%string])) as [Hflag Hfeed].
  { unfold nextPushups, pushups_step. cbv zeta.
    assert ((bodyLineAngle landmarks <? 155) || (bodyLineAngle landmarks >? 205) = true)
      as ->.
    { destruct Hout as [H | H];
        [rewrite Rltb_true by exact H | rewrite Rgtb_true by exact H].
      - reflexivity.
      - apply orb_true_r. }
    destruct (Stage_eqb (stage prev) up); Rcompare; try lra; cbn; repeat split. }
  repeat match goal with |- _ /\ _ => split end; try assumption.
  - intros Hlater.
    destruct (runPushups_out_of_band later (nextPushups landmarks prev now lastRepAt) Hlater)
      as (Hr' & Hg' & Hl').
    unfold sameCount. rewrite Hr', Hg', Hl'. repeat split; assumption.
  - intros Hs He.
    pose proof (pushups_crossing_stage landmarks prev now lastRepAt Hs He) as Hdown.
    split; [exact Hdown |]. intros Hlater.
    destruct (runPushups_down_stays later (nextPushups landmarks prev now lastRepAt)
                Hdown Hlater) as (Hs' & Hr' & Hg' & Hl').
    split; [exact Hs' |]. split.
    + unfold sameCount. rewrite Hr', Hg', Hl'. repeat split; assumption.
    + intros top crossing t1 t2 Ht Hc Hb Hgate.
      unfold runPushups at 1. rewrite fold_left_app.
      fold (runPushups later (nextPushups landmarks prev now lastRepAt)).
      fold (runPushups [(top, t1); (crossing, t2)]
              (runPushups later (nextPushups landmarks prev now lastRepAt))).
      rewrite pushups_next_repetition by (try assumption; rewrite Hl', Hl; exact Hgate).
      rewrite Hr', Hr. reflexivity.
Qed.

(** The same downward crossing is counted with a straight body and not
    counted with a bent one. *)
Example pushup_straight_counts :
  reps (fst (nextPushups (pose 90 170) (set_stage up base) 1000 0)) = 1%Z.
Proof.
  rewrite pushups_frame_pose by lra. unfold pushups_step. cbv zeta.
  Rdecide. cbn. rewrite tryCount_accepts by lra. reflexivity.
Qed.

Lemma pushups_posture_blocks_count_witness :
  sameCount (set_stage up base) 0
    (runPushups [(pose 90 170, 1100); (pose 120 170, 1200)]
       (nextPushups (pose 90 90) (set_stage up base) 1000 0)).
Proof.
  destruct (pushups_posture_blocks_count (pose 90 90) (set_stage up base) 1000 0
              [(pose 90 170, 1100); (pose 120 170, 1200)])
    as (_ & _ & _ & _ & _ & _ & Hlost).
  - left. rewrite bodyLineAngle_pose by lra. lra.
  - destruct Hlost as (_ & Hrun).
    + reflexivity.
    + rewrite armElbowAngle_pose by lra. lra.
    + apply Hrun.
      repeat constructor; cbn [fst]; rewrite armElbowAngle_pose by lra; lra.
Defined.

(** The repetition withheld for a dropped hip is not counted when the
    body is straightened: on the frame at the bottom with the body back
    inside the band the posture flag is set again and the gate is open,
    and still nothing is counted. *)
Lemma pushup_not_counted_when_posture_restored :
  stage (fst pushupExtended) = up /\
  reps (fst pushupBent) = 0%Z /\
  isBackStraight (formFlags (fst pushupBent)) = Some false /\
  isBackStraight (formFlags (fst pushupRestored)) = Some true /\
  1100 - snd pushupBent > 450 /\
  reps (fst pushupRestored) = 0%Z.
Proof.
  unfold pushupRestored, pushupBent, pushupExtended.
  rewrite !pushups_frame_pose by lra.
  unfold pushups_step. cbv zeta.
  repeat (Rdecide; cbn [orb andb negb Stage_eqb truthy isBackStraight formFlags fst snd
                        stage reps set_isBackStraight set_isFullyUp set_isDeepEnough
                        set_stage set_feedback set_formFlags base]).
  repeat split; try reflexivity. lra.
Qed.

(** ** Plank *)

(** C8.  The plank update sets [isTimerRunning] to [true] with the
    affirmative message when the body angle is strictly inside the band
    155 to 205 degrees, and to [false] with the corrective message when
    it is not; the angles 180, 210, 170 give the flags true, false, true.
    The processor applies this update to the shoulder, hip and ankle
    angle of the frame and changes neither [reps], [goodReps] nor the
    gate's ref. *)
Theorem plank_holding
  (bodyAngle : R) (landmarks : Landmarks) (prev : ExerciseMetrics) (now lastRepAt : R) :
  (155 < bodyAngle < 205 ->
   isTimerRunning (plank_step bodyAngle prev) = Some true /\
   feedback (plank_step bodyAngle prev) = ["Good form! Hold it."%string]) /\
  (bodyAngle <= 155 \/ 205 <= bodyAngle ->
   isTimerRunning (plank_step bodyAngle prev) = Some false /\
   feedback (plank_step bodyAngle prev) = ["Straighten your back!"%string]) /\
  holdingTrace [180; 210; 170] prev = [Some true; Some false; Some true] /\
  nextPlank landmarks prev now lastRepAt =
    (plank_step (bodyLineAngle landmarks) prev, lastRepAt) /\
  reps (fst (nextPlank landmarks prev now lastRepAt)) = reps prev /\
  goodReps (fst (nextPlank landmarks prev now lastRepAt)) = goodReps prev /\
  snd (nextPlank landmarks prev now lastRepAt) = lastRepAt.
Proof.
  split; [| split; [| split; [| split; [reflexivity |]]]].
  - intros [Hl Hu]. unfold plank_step. cbv zeta. Rdecide. split; reflexivity.
  - intros [H | H]; unfold plank_step; cbv zeta; Rdecide;
      rewrite ?andb_false_r; split; reflexivity.
  - cbn [holdingTrace]. unfold plank_step. cbv zeta. Rdecide. reflexivity.
  - unfold nextPlank, plank_step. cbv zeta.
    destruct (_ && _); repeat split.
Qed.

Lemma plank_holding_witness :
  isTimerRunning (fst (nextPlank (pose 0 170) base 1000 0)) = Some true /\
  isTimerRunning (fst (nextPlank (pose 0 90) base 1000 0)) = Some false.
Proof.
  split.
  - destruct (plank_holding (bodyLineAngle (pose 0 170)) (pose 0 170) base 1000 0)
      as (Hin & _ & _ & Heq & _).
    rewrite Heq. cbn [fst]. apply Hin. rewrite bodyLineAngle_pose by lra. lra.
  - destruct (plank_holding (bodyLineAngle (pose 0 90)) (pose 0 90) base 1000 0)
      as (_ & Hout & _ & Heq & _).
    rewrite Heq. cbn [fst]. apply Hout. left. rewrite bodyLineAngle_pose by lra. lra.
Defined.

(** * Further properties *)

(** ** When a repetition is counted *)

Lemma Stage_eqb_eq (s t : Stage) : Stage_eqb s t = true <-> s = t.
Proof. destruct s, t; cbn; split; intros H; try reflexivity; discriminate. Qed.

Lemma Stage_eqb_neq (s t : Stage) : Stage_eqb s t = false <-> s <> t.
Proof.
  destruct s, t; cbn; split; intros H; try reflexivity; try discriminate;
    try (intros H'; discriminate); exfalso; now apply H.
Qed.

Lemma tryCount_reps (next : ExerciseMetrics) (now cd lastRepAt : R) :
  reps (fst (tryCount next now cd lastRepAt)) =
    if now - lastRepAt >? cd then (reps next + 1)%Z else reps next.
Proof.
  unfold tryCount. destruct (now - lastRepAt >? cd); [| reflexivity].
  destruct (truthy _ && truthy _); reflexivity.
Qed.

Ltac stage_cases m :=
  destruct (stage m) eqn:?; cbn [Stage_eqb andb orb].

(** X1.  A repetition processor counts a repetition on a frame exactly
    when the previous stage is the rest stage, the tracked quantity is
    past the opposite relaxed threshold, the posture condition (push-ups
    only) holds and the gate is open. *)
Theorem counted_iff_candidate_and_gate_open
  (e : Exercise) (t : Thresholds) (landmarks : Landmarks) (m : ExerciseMetrics)
  (now lastRepAt : R) :
  thresholdsOf e = Some t ->
  (reps (fst (processorOf e landmarks m now lastRepAt)) = (reps m + 1)%Z
   <->
   stage m = restStage e /\
   crossesExit t (combined t landmarks) /\
   postureAllows e landmarks /\
   now - lastRepAt > cooldownMs t).
Proof.
  intros Ht.
  destruct e; cbn [thresholdsOf] in Ht; try discriminate; injection Ht as <-;
    unfold crossesExit, postureAllows;
    cbv beta iota delta [restAbove T_enter T_exit combined cooldownMs restStage];
    cbn [processorOf]; unfold_processors.
  all: try (pose proof (Rmin_l (leftKneeAngle landmarks) (rightKneeAngle landmarks));
            pose proof (Rmin_r (leftKneeAngle landmarks) (rightKneeAngle landmarks));
            assert (Rmin (leftKneeAngle landmarks) (rightKneeAngle landmarks)
                      = leftKneeAngle landmarks
                    \/ Rmin (leftKneeAngle landmarks) (rightKneeAngle landmarks)
                      = rightKneeAngle landmarks) as Hmin
              by (apply Rmin_case; auto)).
  all: stage_cases m; Rcompare; cbn [andb orb negb fst snd truthy formFlags
         set_isBackStraight set_isFullyUp set_isDeepEnough set_stage set_feedback
         set_formFlags isBackStraight reps];
    rewrite ?tryCount_reps;
    cbn [andb orb negb fst snd truthy formFlags
         set_isBackStraight set_isFullyUp set_isDeepEnough set_stage set_feedback
         set_formFlags isBackStraight reps];
    try match goal with
      | |- context [?a - ?b >? ?c] =>
          destruct (a - b >? c) eqn:?; Rreflect
      end;
    (split;
     [ intros Hcount; try lia;
       repeat split; try reflexivity; try lra; try (destruct Hmin; lra)
     | intros (Hs & Hx & Hp & Hg); try discriminate; try lia; try lra;
       try (destruct Hmin; lra) ]).
Qed.

(** ** Stage transitions *)

Lemma tryCount_stage (next : ExerciseMetrics) (now cd lastRepAt : R) :
  stage (fst (tryCount next now cd lastRepAt)) = stage next.
Proof.
  unfold tryCount. destruct (now - lastRepAt >? cd); [| reflexivity].
  destruct (truthy _ && truthy _); reflexivity.
Qed.

(** X2.  The stage of a repetition exercise moves in two ways only: to
    the rest stage when the tracked quantity is past the rest threshold,
    and from the rest stage to the opposite one when it is past the
    opposite threshold (whether or not the repetition is then counted).
    On every other frame the stage stays; it never skips from [ready] to
    the far stage and never returns to [ready]. *)
Theorem stage_moves_by_threshold_crossings
  (e : Exercise) (t : Thresholds) (landmarks : Landmarks) (m : ExerciseMetrics)
  (now lastRepAt : R) :
  thresholdsOf e = Some t ->
  (stage m = restStage e -> crossesExit t (combined t landmarks) ->
   stage (fst (processorOf e landmarks m now lastRepAt)) = flexedStage e) /\
  (crossesEnter t (combined t landmarks) ->
   stage (fst (processorOf e landmarks m now lastRepAt)) = restStage e) /\
  (~ crossesEnter t (combined t landmarks) ->
   ~ (stage m = restStage e /\ crossesExit t (combined t landmarks)) ->
   stage (fst (processorOf e landmarks m now lastRepAt)) = stage m) /\
  (stage (fst (processorOf e landmarks m now lastRepAt)) = ready -> stage m = ready).
Proof.
  intros Ht.
  destruct e; cbn [thresholdsOf] in Ht; try discriminate; injection Ht as <-;
    unfold crossesExit, crossesEnter;
    cbv beta iota delta [restAbove T_enter T_exit combined cooldownMs restStage flexedStage];
    cbn [processorOf]; unfold_processors.
  all: try (pose proof (Rmin_l (leftKneeAngle landmarks) (rightKneeAngle landmarks));
            pose proof (Rmin_r (leftKneeAngle landmarks) (rightKneeAngle landmarks));
            assert (Rmin (leftKneeAngle landmarks) (rightKneeAngle landmarks)
                      = leftKneeAngle landmarks
                    \/ Rmin (leftKneeAngle landmarks) (rightKneeAngle landmarks)
                      = rightKneeAngle landmarks) as Hmin
              by (apply Rmin_case; auto)).
  all: stage_cases m; Rcompare;
    cbn [andb orb negb fst snd truthy formFlags
         set_isBackStraight set_isFullyUp set_isDeepEnough set_stage set_feedback
         set_formFlags isBackStraight stage];
    rewrite ?tryCount_stage;
    cbn [set_isBackStraight set_isFullyUp set_isDeepEnough set_stage set_feedback
         set_formFlags stage];
    (split; [| split; [| split]]);
    try (intros; discriminate);
    try (intros; congruence);
    try (intros; reflexivity);
    try (intros; lra);
    try (intros; destruct Hmin; lra);
    try (intros Hne Hnx; exfalso;
         first [ apply Hne; lra
               | apply Hnx; split; [reflexivity | lra]
               | apply Hne; destruct Hmin; lra
               | apply Hnx; split; [reflexivity | destruct Hmin; lra] ]).
Qed.

(** ** Form flags between two counted repetitions *)

(** X3.  The depth and return flags are cleared only when a repetition
    is counted: an update that counts nothing keeps every such flag that
    was set (also when the gate has just dropped a candidate), and an
    update that counts leaves all flags absent. *)
Theorem flags_kept_until_counted
  (e : Exercise) (landmarks : Landmarks) (m : ExerciseMetrics) (now lastRepAt : R) :
  (reps (fst (processorOf e landmarks m now lastRepAt)) = reps m ->
   (truthy (isDeepEnough (formFlags m)) = true ->
    truthy (isDeepEnough (formFlags (fst (processorOf e landmarks m now lastRepAt)))) = true) /\
   (truthy (isFullyUp (formFlags m)) = true ->
    truthy (isFullyUp (formFlags (fst (processorOf e landmarks m now lastRepAt)))) = true)) /\
  (reps (fst (processorOf e landmarks m now lastRepAt)) <> reps m ->
   formFlags (fst (processorOf e landmarks m now lastRepAt)) = noFlags).
Proof.
  destruct e; cbn [processorOf]; unfold_processors; unfold tryCount;
    repeat match goal with
      | |- context [if ?b then _ else _] => destruct b eqn:?
      end;
    cbn; (split; [intros Hr; try lia; split; intros H; first [exact H | reflexivity]
                 | intros Hr; try reflexivity; try lia; exfalso; apply Hr; reflexivity]).
Qed.

(** Witnesses on the curl session. *)

Lemma counted_iff_candidate_and_gate_open_witness :
  reps (fst (processorOf bicep_curl (pose 30 170) (metricsRef curlReady) 1000 0))
  = (reps (metricsRef curlReady) + 1)%Z.
Proof.
  apply (proj2 (counted_iff_candidate_and_gate_open bicep_curl
                  (mkThresholds armElbowAngle true 150 50 350)
                  (pose 30 170) (metricsRef curlReady) 1000 0 eq_refl)).
  rewrite curlReady_value. unfold crossesExit, postureAllows.
  cbn [restAbove T_exit combined cooldownMs metricsRef stage restStage].
  rewrite armElbowAngle_pose by lra.
  repeat split; lra.
Defined.

Lemma stage_moves_by_threshold_crossings_witness :
  stage (fst (processorOf bicep_curl (pose 30 170) (metricsRef curlReady) 1000 0)) = up.
Proof.
  apply (proj1 (stage_moves_by_threshold_crossings bicep_curl
                  (mkThresholds armElbowAngle true 150 50 350)
                  (pose 30 170) (metricsRef curlReady) 1000 0 eq_refl)).
  - rewrite curlReady_value. reflexivity.
  - unfold crossesExit. cbn [restAbove T_exit combined].
    rewrite armElbowAngle_pose by lra. lra.
Defined.

Lemma flags_kept_until_counted_witness :
  truthy (isFullyUp (formFlags
    (fst (processorOf bicep_curl (pose 30 170) (metricsRef curlReady) 200 0)))) = true.
Proof.
  apply (proj1 (flags_kept_until_counted bicep_curl (pose 30 170)
                  (metricsRef curlReady) 200 0)).
  - cbn [processorOf]. rewrite nextBicepCurl_pose by lra.
    rewrite curlReady_value. cbn [metricsRef].
    rewrite bicepCurl_step_deep by (reflexivity || lra).
    rewrite tryCount_rejects by lra. reflexivity.
  - rewrite curlReady_value. reflexivity.
Defined.

(** ** A flag left over from a dropped candidate *)

(** X4.  Because the flags survive a candidate that the gate drops, a
    shallow curl can be counted as a good one: after a deep curl dropped
    by the gate and a new extension, a curl that stops between 40 and 50
    degrees and passes the gate adds to [goodReps] and is answered with
    the affirmative message. *)
Theorem shallow_curl_counted_good_after_dropped_deep_curl
  (m : ExerciseMetrics) (lastRepAt : R) (l1 l2 l3 : Landmarks) (t1 t2 t3 : R) :
  stage m = down ->
  armElbowAngle l1 < 40 -> t1 - lastRepAt <= 350 ->
  armElbowAngle l2 > 150 ->
  40 <= armElbowAngle l3 < 50 -> t3 - lastRepAt > 350 ->
  metricsRef
    (runFrames [mkResults (Some l1) t1; mkResults (Some l2) t2; mkResults (Some l3) t3]
       (mkSession m (Some "bicep_curl"%string) true lastRepAt))
  = mkMetrics (reps m + 1) up (goodReps m + 1) ["Good form!"%string] noFlags
      (timer m) (isTimerRunning m).
Proof.
  intros Hs H1 Hg1 H2 H3 Hg3.
  unfold runFrames. cbn [fold_left].
  rewrite curl_frame, bicepCurl_step_deep by assumption.
  rewrite tryCount_rejects by assumption. cbn [fst snd].
  rewrite curl_frame, bicepCurl_step_extended by assumption. cbn [fst snd].
  rewrite curl_frame, bicepCurl_step_shallow by (reflexivity || assumption).
  rewrite tryCount_accepts by assumption. reflexivity.
Qed.

Lemma curlCounted_value :
  curlCounted =
  mkSession (mkMetrics 1 down 1 ["Good form!"%string] (mkFormFlags None (Some true) None)
               (Some 0%Z) (Some false))
            (Some "bicep_curl"%string) true 1000.
Proof.
  unfold curlCounted, runFrames. cbn [fold_left]. rewrite curlReady_value.
  curl_run. reflexivity.
Qed.

Lemma shallow_curl_counted_good_after_dropped_deep_curl_witness :
  goodReps (metricsRef
    (runFrames [frameAt 30 170 1200; frameAt 170 170 1300; frameAt 45 170 1400]
       curlCounted)) = 2%Z.
Proof.
  rewrite curlCounted_value. unfold frameAt.
  rewrite (shallow_curl_counted_good_after_dropped_deep_curl _ 1000
             (pose 30 170) (pose 170 170) (pose 45 170) 1200 1300 1400);
    try reflexivity; try (rewrite armElbowAngle_pose by lra); lra.
Defined.

(** ** Counters over a sequence of frames *)

Lemma onPoseResults_increments (results : PoseResults) (s : Session) :
  (0 <= goodReps (metricsRef (onPoseResults results s)) - goodReps (metricsRef s)
     <= reps (metricsRef (onPoseResults results s)) - reps (metricsRef s))%Z /\
  (reps (metricsRef (onPoseResults results s)) - reps (metricsRef s) <= 1)%Z.
Proof.
  destruct (onPoseResults_outcome results s) as [H | (e & _ & H)];
    unfold notCounted, countedOnce, counting in H; cbn [fst snd] in H.
  - destruct H as (Hr & Hg & _). lia.
  - destruct H as (_ & Hr & Hg & _). lia.
Qed.

(** X5.  Over any sequence of frames [reps] and [goodReps] never
    decrease, every frame adds at most one repetition, and the good
    repetitions gained never exceed the repetitions gained. *)
Theorem counters_grow_by_at_most_one_per_frame (frames : list PoseResults) (s : Session) :
  (reps (metricsRef s) <= reps (metricsRef (runFrames frames s))
     <= reps (metricsRef s) + Z.of_nat (List.length frames))%Z /\
  (0 <= goodReps (metricsRef (runFrames frames s)) - goodReps (metricsRef s)
     <= reps (metricsRef (runFrames frames s)) - reps (metricsRef s))%Z.
Proof.
  revert s. induction frames as [| f frames IH]; intros s.
  - cbn. lia.
  - rewrite runFrames_cons. cbn [List.length].
    destruct (IH (onPoseResults f s)) as ((Hl & Hu) & Hg).
    destruct (onPoseResults_increments f s) as (Hg' & Hr').
    lia.
Qed.

Lemma cooldownOfKey_nonneg (id : string) : 0 <= cooldownOfKey id.
Proof.
  unfold cooldownOfKey. destruct (exerciseOfId id); [apply cooldownOf_nonneg | lra].
Qed.

Lemma onPoseResults_rate (results : PoseResults) (s : Session) :
  IZR (reps (metricsRef (onPoseResults results s)) - reps (metricsRef s))
    * cooldownOfKey (selectedKey s)
  <= lastRepAtRef (onPoseResults results s) - lastRepAtRef s /\
  (lastRepAtRef (onPoseResults results s) = lastRepAtRef s \/
   lastRepAtRef (onPoseResults results s) = clock results).
Proof.
  destruct (countedBy_cases results s) as [(Hc & Hl) | (Hc & Hl & e & He & Hg)];
    unfold countedBy in Hc; rewrite Hc.
  - rewrite Hl. split; [lra | left; reflexivity].
  - unfold cooldownOfKey. rewrite He, Hl. split; [lra | right; reflexivity].
Qed.

(** X6.  The cooldown bounds the rate of counting: over any sequence of
    frames whose clock readings do not exceed [T], the repetitions gained
    times the cooldown of the selected exercise is at most the time
    between the gate's ref at the start and [T]. *)
Theorem reps_gained_bounded_by_elapsed_time
  (frames : list PoseResults) (s : Session) (T : R) :
  lastRepAtRef s <= T ->
  (forall results, In results frames -> clock results <= T) ->
  IZR (reps (metricsRef (runFrames frames s)) - reps (metricsRef s))
    * cooldownOfKey (selectedKey s)
  <= T - lastRepAtRef s.
Proof.
  intros Hlast Hclock.
  assert (IZR (reps (metricsRef (runFrames frames s)) - reps (metricsRef s))
            * cooldownOfKey (selectedKey s)
          <= lastRepAtRef (runFrames frames s) - lastRepAtRef s
          /\ lastRepAtRef (runFrames frames s) <= T) as [H1 H2]; [| lra].
  revert s Hlast. induction frames as [| f frames IH]; intros s Hlast.
  - unfold runFrames. cbn [fold_left]. rewrite Z.sub_diag. split; lra.
  - rewrite runFrames_cons.
    destruct (onPoseResults_rate f s) as (Hstep & Hwhere).
    assert (lastRepAtRef (onPoseResults f s) <= T) as Hlast'.
    { destruct Hwhere as [-> | ->]; [exact Hlast |]. apply Hclock. left. reflexivity. }
    destruct (IH (fun r Hin => Hclock r (or_intror Hin)) (onPoseResults f s) Hlast')
      as (Hrest & Hend).
    rewrite selectedKey_onPoseResults in Hrest.
    split; [| exact Hend].
    replace (reps (metricsRef (runFrames frames (onPoseResults f s))) - reps (metricsRef s))%Z
      with ((reps (metricsRef (runFrames frames (onPoseResults f s)))
             - reps (metricsRef (onPoseResults f s)))
            + (reps (metricsRef (onPoseResults f s)) - reps (metricsRef s)))%Z by lia.
    rewrite plus_IZR. lra.
Qed.

Lemma counters_grow_by_at_most_one_per_frame_example :
  reps (metricsRef (runFrames [frameAt 30 170 1000; frameAt 170 170 1100] curlReady)) = 1%Z.
Proof. fold curlCounted. rewrite curlCounted_value. reflexivity. Qed.

Lemma reps_gained_bounded_by_elapsed_time_witness :
  IZR (reps (metricsRef (runFrames [frameAt 30 170 1000; frameAt 170 170 1100] curlReady))
       - reps (metricsRef curlReady))
    * cooldownOfKey (selectedKey curlReady)
  <= 1100 - lastRepAtRef curlReady.
Proof.
  apply (reps_gained_bounded_by_elapsed_time
           [frameAt 30 170 1000; frameAt 170 170 1100] curlReady 1100).
  - rewrite curlReady_value. cbn [lastRepAtRef]. lra.
  - intros results [<- | [<- | []]]; cbn [clock frameAt]; lra.
Defined.

(** ** Frames that are not processed *)

Lemma runFrames_fixed (frames : list PoseResults) (s : Session) :
  (forall results, onPoseResults results s = s) -> runFrames frames s = s.
Proof.
  intros H. induction frames as [| f frames IH]; [reflexivity |].
  rewrite runFrames_cons, H. exact IH.
Qed.

(** X7.  While the workout is not active, or while the selection is not
    an exercise of the dispatch table, frames change nothing: counters,
    stage, feedback and the gate's ref stay as they are, however many
    frames arrive.  In particular frames that arrive after [endWorkout]
    or [resetWorkout] do not touch the result. *)
Theorem frames_ignored_when_inactive_or_unselected
  (frames : list PoseResults) (s : Session) :
  isActiveRef s = false \/ exerciseOfId (selectedKey s) = None ->
  runFrames frames s = s /\
  runFrames frames (endWorkout s) = endWorkout s /\
  runFrames frames (resetWorkout s) = resetWorkout s.
Proof.
  intros H. split; [| split].
  - apply runFrames_fixed. intros [[landmarks |] t].
    + destruct H as [H | H]; [now apply onPoseResults_inactive
                             | now apply onPoseResults_unknown].
    + apply (onPoseResults_noDetection t).
  - apply runFrames_fixed. intros results. now apply onPoseResults_inactive.
  - apply runFrames_fixed. intros results. now apply onPoseResults_inactive.
Qed.

Lemma frames_ignored_when_inactive_or_unselected_witness :
  runFrames [frameAt 170 170 900; frameAt 30 170 1000] (endWorkout curlCounted)
  = endWorkout curlCounted.
Proof.
  apply (proj1 (frames_ignored_when_inactive_or_unselected
                  [frameAt 170 170 900; frameAt 30 170 1000] (endWorkout curlCounted)
                  (or_introl eq_refl))).
Defined.

(** ** The summary *)

Lemma reachable_counters (m : ExerciseMetrics) (lastRepAt : R) :
  reachable m lastRepAt -> (0 <= goodReps m <= reps m)%Z.
Proof.
  induction 1 as [| e landmarks now m lastRepAt _ IH]; [cbn; lia |].
  destruct (processor_outcome e landmarks m now lastRepAt)
    as [(Hr & Hg & _) | (_ & Hr & Hg & _)]; lia.
Qed.

(** X8.  The form accuracy shown in the summary lies between 0 and 100
    for whatever a session has counted; it is 0 when no repetition was
    counted and 100 exactly when every counted repetition was a good
    one. *)
Theorem formPercentage_between_0_and_100 (events : list Event) :
  let metrics := metricsRef (runEvents events initialSession) in
  0 <= formPercentage metrics <= 100 /\
  (reps metrics = 0%Z -> formPercentage metrics = 0) /\
  ((reps metrics > 0)%Z ->
   (formPercentage metrics = 100 <-> goodReps metrics = reps metrics)).
Proof.
  cbv zeta.
  pose proof (reachable_counters _ _ (runEvents_reachable events)) as [Hg Hr].
  set (m := metricsRef (runEvents events initialSession)) in *.
  unfold formPercentage.
  destruct (reps m >? 0)%Z eqn:Hpos.
  - apply Z.gtb_lt in Hpos.
    assert (0 < IZR (reps m)) as HR by (apply (IZR_lt 0); lia).
    assert (0 <= IZR (goodReps m)) as HG by (apply (IZR_le 0); lia).
    assert (IZR (goodReps m) <= IZR (reps m)) as HGR by (apply IZR_le; lia).
    assert (IZR (goodReps m) / IZR (reps m) * 100 <= 100) as Hup.
    { apply Rmult_le_reg_r with (r := IZR (reps m)); [exact HR |].
      replace (IZR (goodReps m) / IZR (reps m) * 100 * IZR (reps m))
        with (IZR (goodReps m) * 100) by (field; lra).
      lra. }
    assert (0 <= IZR (goodReps m) / IZR (reps m) * 100) as Hlow.
    { apply Rmult_le_pos; [| lra].
      apply Rmult_le_pos; [exact HG |]. left. now apply Rinv_0_lt_compat. }
    split; [lra |]. split; [intros H0; lia |].
    intros _. split; intros H.
    + apply eq_IZR.
      assert (IZR (goodReps m) / IZR (reps m) * 100 * IZR (reps m) = 100 * IZR (reps m))
        as H' by (rewrite H; reflexivity).
      replace (IZR (goodReps m) / IZR (reps m) * 100 * IZR (reps m))
        with (IZR (goodReps m) * 100) in H' by (field; lra).
      lra.
    + rewrite H. field. lra.
  - split; [lra |]. split; [reflexivity |].
    intros Hgt. exfalso. rewrite Z.gtb_ltb in Hpos. apply Z.ltb_ge in Hpos. lia.
Qed.

Lemma formPercentage_between_0_and_100_witness :
  formPercentage
    (metricsRef (runEvents [EvSelect (Some "bicep_curl"%string); EvStart;
                            EvFrame (frameAt 170 170 500); EvFrame (frameAt 30 170 1000)]
                   initialSession)) = 100.
Proof.
  apply (proj2 (proj2 (formPercentage_between_0_and_100
           [EvSelect (Some "bicep_curl"%string); EvStart;
            EvFrame (frameAt 170 170 500); EvFrame (frameAt 30 170 1000)]))).
  - unfold runEvents. cbn [fold_left handle].
    change (startWorkout (selectExercise (Some "bicep_curl"%string) initialSession))
      with (activeSession "bicep_curl").
    rewrite activeSession_value. curl_run. cbn. lia.
  - unfold runEvents. cbn [fold_left handle].
    change (startWorkout (selectExercise (Some "bicep_curl"%string) initialSession))
      with (activeSession "bicep_curl").
    rewrite activeSession_value. curl_run. reflexivity.
Defined.

(** ** The plank ticker *)

Lemma tryCount_timer (next : ExerciseMetrics) (now cd lastRepAt : R) :
  timer (fst (tryCount next now cd lastRepAt)) = timer next.
Proof.
  unfold tryCount. destruct (now - lastRepAt >? cd); [| reflexivity].
  destruct (truthy _ && truthy _); reflexivity.
Qed.

Lemma tryCount_tickTimer (next : ExerciseMetrics) (now cd lastRepAt : R) :
  tryCount (tickTimer next) now cd lastRepAt =
    (tickTimer (fst (tryCount next now cd lastRepAt)), snd (tryCount next now cd lastRepAt)).
Proof.
  unfold tryCount. destruct (now - lastRepAt >? cd); [| reflexivity].
  cbn. destruct (truthy _ && truthy _); reflexivity.
Qed.

Lemma timer_iter_tick (n : nat) (m : ExerciseMetrics) :
  timer (tickTimes n m)
  = match n with
    | O => timer m
    | S _ => Some ((match timer m with Some t => t | None => 0 end) + Z.of_nat n)%Z
    end.
Proof.
  induction n as [| n IH]; [reflexivity |].
  cbn [tickTimes]. unfold tickTimer at 1. cbn [timer set_timer]. rewrite IH.
  destruct n as [| n]; [reflexivity |]. f_equal. lia.
Qed.

(** X9.  The hold timer is advanced by the ticker only: no processor
    changes [timer], a tick changes nothing but [timer] (a missing timer
    counts as 0), a processor update and a tick give the same result in
    either order, and [n] ticks add [n] seconds. *)
Theorem timer_advanced_only_by_ticker
  (e : Exercise) (landmarks : Landmarks) (m : ExerciseMetrics) (now lastRepAt : R)
  (n : nat) :
  timer (fst (processorOf e landmarks m now lastRepAt)) = timer m /\
  processorOf e landmarks (tickTimer m) now lastRepAt
    = (tickTimer (fst (processorOf e landmarks m now lastRepAt)),
       snd (processorOf e landmarks m now lastRepAt)) /\
  set_timer (timer m) (tickTimer m) = m /\
  timer (tickTimes (S n) m)
    = Some ((match timer m with Some t => t | None => 0 end) + Z.of_nat (S n))%Z.
Proof.
  split; [| split; [| split]].
  - destruct e; cbn [processorOf]; unfold_processors;
      repeat match goal with
        | |- context [if ?b then _ else _] =>
            lazymatch b with
            | context [tryCount] => fail
            | _ => destruct b eqn:?
            end
        end;
      rewrite ?tryCount_timer; reflexivity.
  - destruct e; cbn [processorOf]; unfold_processors; unfold tryCount, tickTimer;
      cbn [reps stage goodReps feedback formFlags timer isTimerRunning
           isDeepEnough isFullyUp isBackStraight
           set_reps set_stage set_goodReps set_feedback set_formFlags set_isTimerRunning
           set_isDeepEnough set_isFullyUp set_isBackStraight set_timer fst snd];
      repeat match goal with
        | |- context [if ?b then _ else _] => destruct b eqn:?
        end;
      cbn [reps stage goodReps feedback formFlags timer isTimerRunning
           isDeepEnough isFullyUp isBackStraight
           set_reps set_stage set_goodReps set_feedback set_formFlags set_isTimerRunning
           set_isDeepEnough set_isFullyUp set_isBackStraight set_timer fst snd] in *;
      try reflexivity; try congruence.
  - destruct m; reflexivity.
  - apply (timer_iter_tick (S n)).
Qed.

Lemma bodyLineAngle_range (landmarks : Landmarks) : 0 <= bodyLineAngle landmarks <= 180.
Proof. apply calculateAngle_range. Qed.

Lemma plank_frame (landmarks : Landmarks) (t : R) (m : ExerciseMetrics) (lastRepAt : R) :
  onPoseResults (mkResults (Some landmarks) t) (plankSession m lastRepAt)
  = plankSession (plank_step (bodyLineAngle landmarks) m) lastRepAt.
Proof. unfold plankSession. now rewrite (onPoseResults_processor plank). Qed.

(** X10.  On an active plank session the ticker runs after a frame
    exactly when the body angle of that frame exceeds 155 degrees (the
    upper bound 205 of the band can never be reached by a measured
    angle); a frame without landmarks leaves the ticker as it was, so
    the timer keeps running while nobody is detected. *)
Theorem plank_ticker_follows_last_frame
  (landmarks : Landmarks) (t : R) (m : ExerciseMetrics) (lastRepAt : R) :
  (timerEffectRuns (onPoseResults (mkResults (Some landmarks) t) (plankSession m lastRepAt))
     = true
   <-> bodyLineAngle landmarks > 155) /\
  timerEffectRuns (onPoseResults (noDetection t) (plankSession m lastRepAt))
    = timerEffectRuns (plankSession m lastRepAt).
Proof.
  split.
  - rewrite plank_frame. unfold timerEffectRuns, plankSession, plank_step.
    cbn [isActiveRef selectedExerciseRef metricsRef]. cbv zeta.
    pose proof (bodyLineAngle_range landmarks) as [_ Hu].
    rewrite (Rltb_true (bodyLineAngle landmarks) 205) by lra.
    rewrite andb_true_r.
    destruct (bodyLineAngle landmarks >? 155) eqn:E; Rreflect; cbn;
      split; intros H; try reflexivity; try discriminate; lra.
  - now rewrite onPoseResults_noDetection.
Qed.

Lemma plank_ticker_follows_last_frame_witness :
  timerEffectRuns (onPoseResults (frameAt 0 170 1000) (plankSession base 0)) = true.
Proof.
  apply (proj1 (plank_ticker_follows_last_frame (pose 0 170) 1000 base 0)).
  rewrite bodyLineAngle_pose by lra. lra.
Defined.

(** ** The countdown *)

Lemma countdownRun_idle (n : nat) (s : Session) :
  countdownRun n None s = (None, s).
Proof. induction n as [| n IH]; [reflexivity | exact IH]. Qed.

Lemma countdownRun_nonpositive (n : nat) (p : Z) (s : Session) :
  (p <= 0)%Z -> snd (countdownRun n (Some p) s) = s.
Proof.
  revert p. induction n as [| n IH]; intros p Hp; [reflexivity |].
  cbn [countdownRun countdownTick].
  destruct (p =? 1)%Z eqn:E1; [apply Z.eqb_eq in E1; lia |].
  destruct (p =? 0)%Z eqn:E0.
  - now rewrite countdownRun_idle.
  - apply IH. lia.
Qed.

(** X11.  A countdown that starts at [n >= 1] shows [n - k] after [k < n]
    ticks and leaves the session as it is; the tick number [n] ends the
    countdown and switches the session to active; later ticks do nothing.
    A countdown that is [null] (as after [resetWorkout]), zero or
    negative never switches the session to active. *)
Theorem countdown_activates_on_last_tick (n k : nat) (s : Session) :
  (1 <= n)%nat ->
  ((k < n)%nat -> countdownRun k (Some (Z.of_nat n)) s = (Some (Z.of_nat n - Z.of_nat k)%Z, s)) /\
  ((n <= k)%nat -> countdownRun k (Some (Z.of_nat n)) s = (None, startWorkout s)) /\
  countdownRun k None s = (None, s) /\
  (forall p, (p <= 0)%Z -> snd (countdownRun k (Some p) s) = s).
Proof.
  intros Hn.
  assert (forall k n s, (k < n)%nat ->
            countdownRun k (Some (Z.of_nat n)) s = (Some (Z.of_nat n - Z.of_nat k)%Z, s))
    as Hbefore.
  { clear. induction k as [| k IH]; intros n s Hk.
    - cbn [countdownRun]. do 2 f_equal. lia.
    - cbn [countdownRun countdownTick].
      destruct (Z.of_nat n =? 1)%Z eqn:E1; [apply Z.eqb_eq in E1; lia |].
      destruct (Z.of_nat n =? 0)%Z eqn:E0; [apply Z.eqb_eq in E0; lia |].
      replace (Z.of_nat n - 1)%Z with (Z.of_nat (n - 1)) by lia.
      rewrite IH by lia. do 2 f_equal. lia. }
  split; [apply Hbefore |]. split; [| split].
  - intros Hk.
    replace k with ((n - 1) + S (k - n))%nat by lia.
    assert (forall a b c s, countdownRun (a + b) c s
              = countdownRun b (fst (countdownRun a c s)) (snd (countdownRun a c s)))
      as Hsplit.
    { clear. induction a as [| a IH]; intros b c s; [reflexivity |].
      cbn [Nat.add countdownRun]. destruct (countdownTick c) as [c' act]. apply IH. }
    rewrite Hsplit, Hbefore by lia. cbn [fst snd].
    replace (Z.of_nat n - Z.of_nat (n - 1))%Z with 1%Z by lia.
    cbn [countdownRun countdownTick Z.eqb Pos.eqb]. apply countdownRun_idle.
  - apply countdownRun_idle.
  - intros p Hp. now apply countdownRun_nonpositive.
Qed.

Lemma countdown_activates_on_last_tick_witness :
  countdownRun 2 (Some 3%Z) (resetWorkout curlCounted) = (Some 1%Z, resetWorkout curlCounted) /\
  countdownRun 3 (Some 3%Z) (resetWorkout curlCounted)
    = (None, startWorkout (resetWorkout curlCounted)).
Proof.
  split.
  - apply (proj1 (countdown_activates_on_last_tick 3 2 (resetWorkout curlCounted)
                    (le_S _ _ (le_S _ _ (le_n 1))))). lia.
  - apply (proj1 (proj2 (countdown_activates_on_last_tick 3 3 (resetWorkout curlCounted)
                    (le_S _ _ (le_S _ _ (le_n 1)))))). lia.
Defined.

(** ** The angle helper is symmetric *)

(** X13.  The measured angle does not depend on which of the two outer
    points is given first: the angle at [b] between [c] and [a] is the
    angle at [b] between [a] and [c]. *)
Theorem calculateAngle_symmetric (a b c : Point) :
  calculateAngle c b a = calculateAngle a b c.
Proof.
  unfold calculateAngle. cbv zeta.
  set (dc := atan2 (snd c - snd b) (fst c - fst b)).
  set (da := atan2 (snd a - snd b) (fst a - fst b)).
  replace ((da - dc) * 180 / PI) with (- ((dc - da) * 180 / PI))
    by (unfold Rdiv; ring).
  now rewrite Rabs_Ropp.
Qed.

(** ** Missing landmarks *)

Lemma land_out_of_range (landmarks : Landmarks) (idx : nat) :
  (List.length landmarks <= idx)%nat -> land landmarks idx = origin.
Proof.
  intros H. unfold land, coord.
  now rewrite (proj2 (nth_error_None landmarks idx) H).
Qed.

(** X15.  A landmark array too short to hold the arm landmarks is read
    as a fully flexed elbow: the elbow angle is 0, so from stage [down]
    with the gate open the bicep-curl processor counts a repetition on
    such a frame, while the push-up processor, whose body angle is then
    0 as well, never counts on it. *)
Theorem short_landmark_array_read_as_flexed
  (landmarks : Landmarks) (m : ExerciseMetrics) (now lastRepAt : R) :
  (List.length landmarks <= 11)%nat ->
  armElbowAngle landmarks = 0 /\
  bodyLineAngle landmarks = 0 /\
  (stage m = down -> now - lastRepAt > 350 ->
   reps (fst (nextBicepCurl landmarks m now lastRepAt)) = (reps m + 1)%Z) /\
  reps (fst (nextPushups landmarks m now lastRepAt)) = reps m.
Proof.
  intros Hlen.
  assert (armElbowAngle landmarks = 0) as Harm.
  { unfold armElbowAngle. cbv zeta.
    rewrite !land_out_of_range by lia.
    rewrite calculateAngle_coincident. apply Rmin_left. lra. }
  assert (bodyLineAngle landmarks = 0) as Hbody.
  { unfold bodyLineAngle. rewrite !land_out_of_range by lia.
    apply calculateAngle_coincident. }
  split; [exact Harm |]. split; [exact Hbody |]. split.
  - intros Hs Hg. unfold nextBicepCurl. cbv zeta. rewrite Harm.
    rewrite bicepCurl_step_deep by (assumption || lra).
    rewrite tryCount_reps, Rgtb_true by exact Hg. reflexivity.
  - unfold nextPushups, pushups_step. cbv zeta. rewrite Harm, Hbody.
    Rdecide. destruct (Stage_eqb (stage m) up); reflexivity.
Qed.

Lemma short_landmark_array_read_as_flexed_witness :
  reps (fst (nextBicepCurl [] (metricsRef curlCounted) 2000 (lastRepAtRef curlCounted)))
  = (reps (metricsRef curlCounted) + 1)%Z.
Proof.
  apply (proj1 (proj2 (proj2 (short_landmark_array_read_as_flexed []
           (metricsRef curlCounted) 2000 (lastRepAtRef curlCounted) (Nat.le_0_l 11))))).
  - rewrite curlCounted_value. reflexivity.
  - rewrite curlCounted_value. cbn [lastRepAtRef]. lra.
Defined.

(** ** The affirmative message *)

Lemma tryCount_good_message (next : ExerciseMetrics) (now cd lastRepAt : R) :
  (goodReps (fst (tryCount next now cd lastRepAt)) = (goodReps next + 1)%Z /\
   feedback (fst (tryCount next now cd lastRepAt)) = ["Good form!"%string]) \/
  (goodReps (fst (tryCount next now cd lastRepAt)) = goodReps next /\
   feedback (fst (tryCount next now cd lastRepAt)) = feedback next).
Proof.
  unfold tryCount. destruct (now - lastRepAt >? cd); [| right; split; reflexivity].
  destruct (truthy _ && truthy _); [left | right]; split; reflexivity.
Qed.

(** X16.  A processor update that adds to [goodReps] always answers with
    the message "Good form!", and that message is never written on any
    other occasion: when it is the feedback after an update, either a
    good repetition was counted on this frame or the message was already
    there before. *)
Theorem good_form_message_iff_good_rep
  (e : Exercise) (landmarks : Landmarks) (m : ExerciseMetrics) (now lastRepAt : R) :
  (goodReps (fst (processorOf e landmarks m now lastRepAt)) = (goodReps m + 1)%Z ->
   feedback (fst (processorOf e landmarks m now lastRepAt)) = ["Good form!"%string]) /\
  (feedback (fst (processorOf e landmarks m now lastRepAt)) = ["Good form!"%string] ->
   goodReps (fst (processorOf e landmarks m now lastRepAt)) = (goodReps m + 1)%Z \/
   feedback m = ["Good form!"%string]).
Proof.
  destruct e; cbn [processorOf]; unfold_processors;
    repeat match goal with
      | |- context [if ?b then _ else _] =>
          lazymatch b with
          | context [tryCount] => fail
          | _ => destruct b eqn:?
          end
      end;
    try match goal with
      | |- context [tryCount ?n ?t ?c ?l] =>
          destruct (tryCount_good_message n t c l) as [[Hg Hf] | [Hg Hf]];
            rewrite Hg, Hf
      end;
    cbn [fst goodReps feedback set_isBackStraight set_isFullyUp set_isDeepEnough
         set_stage set_feedback set_formFlags set_isTimerRunning];
    (split; [intros H; try reflexivity; try lia
            | intros H; try (left; reflexivity); try (right; exact H); try discriminate]).
Qed.

Lemma good_form_message_iff_good_rep_witness :
  feedback (fst (processorOf bicep_curl (pose 30 170) (metricsRef curlCounted) 2000
                   (lastRepAtRef curlCounted))) = ["Good form!"%string].
Proof.
  apply (proj1 (good_form_message_iff_good_rep bicep_curl (pose 30 170)
                  (metricsRef curlCounted) 2000 (lastRepAtRef curlCounted))).
  cbn [processorOf]. rewrite nextBicepCurl_pose by lra.
  rewrite curlCounted_value. cbn [metricsRef lastRepAtRef].
  rewrite bicepCurl_step_deep by (reflexivity || lra).
  rewrite tryCount_accepts by lra. reflexivity.
Defined.

(** ** The flag of the rest position *)

Lemma tryCount_flags (next : ExerciseMetrics) (now cd lastRepAt : R) :
  formFlags (fst (tryCount next now cd lastRepAt)) = formFlags next \/
  formFlags (fst (tryCount next now cd lastRepAt)) = noFlags.
Proof.
  unfold tryCount. destruct (now - lastRepAt >? cd); [| left; reflexivity].
  right. destruct (truthy _ && truthy _); reflexivity.
Qed.

Lemma processor_rest_flag (e : Exercise) (landmarks : Landmarks) (m : ExerciseMetrics)
  (now lastRepAt : R) :
  thresholdsOf e <> None ->
  (stage m = restStage e -> truthy (restFlag e (formFlags m)) = true) ->
  stage (fst (processorOf e landmarks m now lastRepAt)) = restStage e ->
  truthy (restFlag e (formFlags (fst (processorOf e landmarks m now lastRepAt)))) = true.
Proof.
  intros Ht Hinv.
  destruct e; cbn [thresholdsOf] in Ht; try (exfalso; now apply Ht);
    cbn [restStage restFlag] in *; cbn [processorOf]; unfold_processors;
    stage_cases m;
    repeat match goal with
      | |- context [if ?b then _ else _] =>
          lazymatch b with
          | context [tryCount] => fail
          | _ => destruct b eqn:?
          end
      end;
    rewrite ?tryCount_stage;
    cbn [fst stage formFlags isFullyUp isDeepEnough truthy set_isBackStraight
         set_isFullyUp set_isDeepEnough set_stage set_feedback set_formFlags];
    intros Hs; try discriminate; try reflexivity; try (apply Hinv; reflexivity);
    try congruence.
Qed.

(** X17.  In a session of one repetition exercise that starts fresh,
    the stage is the rest stage only while the flag of the rest position
    is set: the rest stage is entered by the update that sets the flag,
    and the only update that clears flags also leaves the rest stage. *)
Theorem rest_stage_implies_rest_flag
  (e : Exercise) (frames : list PoseResults) (s : Session) :
  exerciseOfId (selectedKey s) = Some e ->
  thresholdsOf e <> None ->
  fresh s ->
  stage (metricsRef (runFrames frames s)) = restStage e ->
  truthy (restFlag e (formFlags (metricsRef (runFrames frames s)))) = true.
Proof.
  intros He Ht [Hm _].
  assert (stage (metricsRef s) = restStage e ->
          truthy (restFlag e (formFlags (metricsRef s))) = true) as Hinv.
  { rewrite Hm. intros H. destruct e; discriminate. }
  clear Hm. revert s He Hinv.
  induction frames as [| f frames IH]; intros s He Hinv; [exact Hinv |].
  rewrite runFrames_cons. apply IH.
  - now rewrite selectedKey_onPoseResults.
  - destruct f as [[landmarks |] t].
    + destruct (isActiveRef s) eqn:Ha.
      * rewrite (onPoseResults_processor e) by assumption.
        cbn [metricsRef]. now apply processor_rest_flag.
      * now rewrite onPoseResults_inactive.
    + change (mkResults None t) with (noDetection t).
      now rewrite onPoseResults_noDetection.
Qed.

Lemma rest_stage_implies_rest_flag_witness :
  truthy (restFlag bicep_curl
            (formFlags (metricsRef (runFrames [frameAt 170 170 500]
                                      (activeSession "bicep_curl"))))) = true.
Proof.
  apply (rest_stage_implies_rest_flag bicep_curl [frameAt 170 170 500]
           (activeSession "bicep_curl")).
  - rewrite activeSession_value. reflexivity.
  - discriminate.
  - rewrite activeSession_value. split; reflexivity.
  - unfold runFrames. cbn [fold_left]. rewrite activeSession_value.
    curl_run. reflexivity.
Defined.

(** ** The earlier revision *)

Ltac unfold_earlier :=
  unfold Earlier.nextBicepCurl, Earlier.nextSquats, Earlier.nextPushups,
    Earlier.nextLunges, Earlier.nextOverheadPress, Earlier.nextLateralRaises,
    Earlier.nextGluteBridges, Earlier.nextCrunches, Earlier.nextPlank,
    Earlier.bicepCurl_step, Earlier.squats_step, Earlier.pushups_step,
    Earlier.lunges_step, Earlier.overheadPress_step, Earlier.lateralRaises_step,
    Earlier.gluteBridges_step, Earlier.crunches_step, Earlier.plank_step,
    Earlier.tryCount;
  cbv zeta.

Lemma earlier_processor_counts (e : Exercise) (proc : Processor) (landmarks : Landmarks)
  (m : ExerciseMetrics) (now lastRepAt : R) :
  EarlierSession.processorOf e = Some proc ->
  (reps (fst (proc landmarks m now lastRepAt)) = reps m /\
   goodReps (fst (proc landmarks m now lastRepAt)) = goodReps m) \/
  (reps (fst (proc landmarks m now lastRepAt)) = (reps m + 1)%Z /\
   goodReps (fst (proc landmarks m now lastRepAt)) = (goodReps m + 1)%Z).
Proof.
  intros Hp.
  destruct e; cbn [EarlierSession.processorOf] in Hp; try discriminate;
    injection Hp as <-; unfold_earlier;
    repeat match goal with
      | |- context [if ?b then _ else _] => destruct b eqn:?
      end;
    cbn; first [left; split; reflexivity | right; split; reflexivity].
Qed.

Lemma earlier_onPoseResults_counts (results : PoseResults) (s : Session) :
  (reps (metricsRef (EarlierSession.onPoseResults results s))
   - goodReps (metricsRef (EarlierSession.onPoseResults results s))
   = reps (metricsRef s) - goodReps (metricsRef s))%Z /\
  (reps (metricsRef s) <= reps (metricsRef (EarlierSession.onPoseResults results s)))%Z.
Proof.
  unfold EarlierSession.onPoseResults, EarlierSession.exerciseProcessors.
  destruct (isActiveRef s); [| lia].
  destruct (poseLandmarks results) as [landmarks |]; [| lia].
  cbv zeta.
  destruct (exerciseOfId (selectedKey s)) as [e |]; [| cbn; lia].
  destruct (EarlierSession.processorOf e) as [proc |] eqn:Hp; [| cbn; lia].
  pose proof (earlier_processor_counts e proc landmarks (metricsRef s) (clock results)
                (lastRepAtRef s) Hp) as H.
  destruct (proc landmarks (metricsRef s) (clock results) (lastRepAtRef s)) as [m' l'].
  cbn [fst metricsRef] in *. lia.
Qed.

(** X18.  The earlier revision counts every accepted repetition as a
    good one: whatever frames a session that starts from equal counters
    has processed, [goodReps] equals [reps], and the summary of that
    revision therefore always shows a form accuracy of 100. *)
Theorem earlier_every_rep_is_good (frames : list PoseResults) (s : Session) :
  goodReps (metricsRef s) = reps (metricsRef s) ->
  goodReps (metricsRef (EarlierSession.runFrames frames s))
    = reps (metricsRef (EarlierSession.runFrames frames s)) /\
  EarlierSession.formPercentage (metricsRef (EarlierSession.runFrames frames s)) = 100.
Proof.
  intros Heq.
  assert (goodReps (metricsRef (EarlierSession.runFrames frames s))
          = reps (metricsRef (EarlierSession.runFrames frames s))) as H.
  { revert s Heq. induction frames as [| f frames IH]; intros s Heq; [exact Heq |].
    unfold EarlierSession.runFrames. cbn [fold_left].
    apply IH. destruct (earlier_onPoseResults_counts f s). lia. }
  split; [exact H |].
  unfold EarlierSession.formPercentage. rewrite H.
  destruct (reps _ >? 0)%Z eqn:E; [| reflexivity].
  rewrite Z.gtb_ltb in E. apply Z.ltb_lt in E.
  field. apply not_0_IZR. lia.
Qed.

Lemma earlier_every_rep_is_good_witness :
  EarlierSession.formPercentage
    (metricsRef (EarlierSession.runFrames [frameAt 170 170 500; frameAt 20 170 1000]
                   (activeSession "bicep_curl"))) = 100.
Proof.
  refine (proj2 (earlier_every_rep_is_good [frameAt 170 170 500; frameAt 20 170 1000]
                  (activeSession "bicep_curl") _)).
  rewrite activeSession_value. reflexivity.
Defined.

(** X19.  In the earlier revision the feedback of an update is rebuilt
    from the frame alone: it does not depend on the previous state, the
    clock or the gate, and holds at most one message (none at all for
    the repetition exercises). *)
Theorem earlier_feedback_rebuilt_every_frame
  (e : Exercise) (proc : Processor) (landmarks : Landmarks)
  (prev prev' : ExerciseMetrics) (now now' lastRepAt lastRepAt' : R) :
  EarlierSession.processorOf e = Some proc ->
  feedback (fst (proc landmarks prev now lastRepAt))
    = feedback (fst (proc landmarks prev' now' lastRepAt')) /\
  (List.length (feedback (fst (proc landmarks prev now lastRepAt))) <= 1)%nat /\
  (e <> plank -> feedback (fst (proc landmarks prev now lastRepAt)) = []).
Proof.
  intros Hp.
  destruct e; cbn [EarlierSession.processorOf] in Hp; try discriminate;
    injection Hp as <-; unfold_earlier;
    repeat match goal with
      | |- context [if ?b then _ else _] => destruct b eqn:?
      end;
    cbn; repeat split; try lia; try reflexivity;
    try (intros H; exfalso; apply H; reflexivity).
Qed.

Lemma earlier_feedback_rebuilt_every_frame_witness :
  feedback (fst (Earlier.nextPlank (pose 0 170) base 0 0))
  = feedback (fst (Earlier.nextPlank (pose 0 170) (fst afterOneCurl) 1000 500)).
Proof.
  apply (proj1 (earlier_feedback_rebuilt_every_frame plank Earlier.nextPlank (pose 0 170)
                  base (fst afterOneCurl) 0 1000 0 500 eq_refl)).
Defined.

(** * The diet plan view *)

(** ** Expanded sections *)

Lemma has_delete (key key' : string) (s : DietPlan.StringSet) :
  DietPlan.has (DietPlan.delete key s) key'
  = if String.eqb key' key then false else DietPlan.has s key'.
Proof.
  unfold DietPlan.has, DietPlan.delete.
  induction s as [| k s IH]; cbn [filter existsb].
  - now destruct (String.eqb key' key).
  - destruct (String.eqb k key) eqn:Ek; cbn [negb existsb].
    + rewrite IH. apply String.eqb_eq in Ek. subst k.
      now destruct (String.eqb key' key).
    + rewrite IH. destruct (String.eqb key' key) eqn:E; [| reflexivity].
      apply String.eqb_eq in E. subst key'.
      rewrite String.eqb_sym, Ek. reflexivity.
Qed.

Lemma has_add (key key' : string) (s : DietPlan.StringSet) :
  DietPlan.has (DietPlan.add key s) key'
  = (String.eqb key' key || DietPlan.has s key')%bool.
Proof.
  unfold DietPlan.add.
  destruct (DietPlan.has s key) eqn:Hk.
  - destruct (String.eqb key' key) eqn:E; [| reflexivity].
    apply String.eqb_eq in E. subst key'. exact Hk.
  - unfold DietPlan.has. rewrite existsb_app. cbn [existsb].
    rewrite orb_false_r. apply orb_comm.
Qed.

Lemma has_toggleSection (key key' : string) (s : DietPlan.StringSet) :
  DietPlan.has (DietPlan.toggleSection key s) key'
  = if String.eqb key' key then negb (DietPlan.has s key') else DietPlan.has s key'.
Proof.
  unfold DietPlan.toggleSection. cbv zeta.
  destruct (DietPlan.has s key) eqn:Hk.
  - rewrite has_delete. destruct (String.eqb key' key) eqn:E; [| reflexivity].
    apply String.eqb_eq in E. subst key'. now rewrite Hk.
  - rewrite has_add. destruct (String.eqb key' key) eqn:E; [| reflexivity].
    apply String.eqb_eq in E. subst key'. now rewrite Hk.
Qed.

Lemma to_uint_nonnil (n : nat) : Nat.to_uint n <> Decimal.Nil.
Proof.
  rewrite <- (DecimalNat.Unsigned.of_to n) at 1.
  rewrite DecimalNat.Unsigned.to_of. apply DecimalFacts.unorm_nonnil.
Qed.

Lemma sectionKey_inj (i j : nat) : DietPlan.sectionKey i = DietPlan.sectionKey j -> i = j.
Proof.
  unfold DietPlan.sectionKey. cbn [String.append]. intros H.
  injection H as H.
  apply DecimalNat.Unsigned.to_uint_inj.
  apply (f_equal DecimalString.NilZero.uint_of_string) in H.
  rewrite !DecimalString.NilZero.usu in H by apply to_uint_nonnil.
  now injection H.
Qed.

Lemma sectionKey_not_summary (i : nat) : DietPlan.sectionKey i <> "summary"%string.
Proof. unfold DietPlan.sectionKey. cbn [String.append]. discriminate. Qed.

Lemma eqb_sectionKey (i j : nat) :
  String.eqb (DietPlan.sectionKey i) (DietPlan.sectionKey j) = Nat.eqb i j.
Proof.
  destruct (Nat.eqb i j) eqn:E.
  - apply Nat.eqb_eq in E. subst j. apply String.eqb_refl.
  - apply String.eqb_neq. intros H. apply sectionKey_inj in H.
    apply Nat.eqb_neq in E. contradiction.
Qed.

Lemma clickSections_has (clicks : list nat) (s : DietPlan.StringSet) (i : nat) :
  DietPlan.isExpanded (DietPlan.clickSections clicks s) i
  = xorb (DietPlan.isExpanded s i) (Nat.odd (count_occ Nat.eq_dec clicks i)).
Proof.
  unfold DietPlan.isExpanded, DietPlan.clickSections.
  revert s. induction clicks as [| j clicks IH]; intros s.
  - cbn. now rewrite xorb_false_r.
  - cbn [fold_left]. rewrite IH, has_toggleSection, eqb_sectionKey.
    destruct (Nat.eq_dec j i) as [-> | Hne].
    + rewrite Nat.eqb_refl, count_occ_cons_eq by reflexivity.
      rewrite Nat.odd_succ, <- Nat.negb_odd.
      now destruct (DietPlan.has s (DietPlan.sectionKey i)), (Nat.odd _).
    + rewrite count_occ_cons_neq by exact Hne.
      assert (Nat.eqb i j = false) as -> by (apply Nat.eqb_neq; congruence).
      reflexivity.
Qed.

(** X20.  Every section of the diet plan starts collapsed (the initial
    entry "summary" is the key of no section), and after any sequence of
    clicks on section headers a section is expanded exactly when its own
    header was clicked an odd number of times; clicks on other headers
    do not affect it, and the entry "summary" is never removed. *)
Theorem section_expanded_iff_clicked_odd_times (clicks : list nat) (i : nat) :
  DietPlan.isExpanded DietPlan.initialExpanded i = false /\
  DietPlan.isExpanded (DietPlan.clickSections clicks DietPlan.initialExpanded) i
    = Nat.odd (count_occ Nat.eq_dec clicks i) /\
  DietPlan.has (DietPlan.clickSections clicks DietPlan.initialExpanded) "summary" = true.
Proof.
  assert (DietPlan.isExpanded DietPlan.initialExpanded i = false) as Hinit.
  { unfold DietPlan.isExpanded, DietPlan.initialExpanded, DietPlan.has.
    cbn [existsb]. rewrite orb_false_r. apply String.eqb_neq.
    apply sectionKey_not_summary. }
  split; [exact Hinit |]. split.
  - now rewrite clickSections_has, Hinit.
  - unfold DietPlan.clickSections.
    assert (DietPlan.has DietPlan.initialExpanded "summary" = true) as H by reflexivity.
    revert H. generalize DietPlan.initialExpanded.
    induction clicks as [| j clicks IH]; intros s H; [exact H |].
    cbn [fold_left]. apply IH. rewrite has_toggleSection.
    assert (String.eqb "summary" (DietPlan.sectionKey j) = false) as ->.
    { apply String.eqb_neq. intros E. symmetry in E.
      now apply sectionKey_not_summary in E. }
    exact H.
Qed.

(** ** Sections of the generated text *)

Lemma isUpper_not_star (c : N) : DietPlan.isUpper c = true -> DietPlan.isStar c = false.
Proof.
  unfold DietPlan.isUpper, DietPlan.isStar, DietPlan.star. intros H.
  apply andb_prop in H as [H1 H2]. apply N.leb_le in H1.
  apply N.eqb_neq. lia.
Qed.

Lemma splitSections_concat (s : DietPlan.JsString) :
  fst (DietPlan.splitSections s) ++ List.concat (snd (DietPlan.splitSections s)) = s.
Proof.
  induction s as [| c rest IH]; [reflexivity |].
  cbn [DietPlan.splitSections].
  destruct (DietPlan.splitSections rest) as [piece pieces].
  cbn [fst snd] in IH.
  destruct (DietPlan.headerAt rest); cbn [fst snd List.concat app]; now rewrite IH.
Qed.

Lemma headerAt_first_piece (s : DietPlan.JsString) :
  DietPlan.headerAt s = true -> DietPlan.beginsHeader (fst (DietPlan.splitSections s)).
Proof.
  destruct s as [| a [| b [| c rest]]]; try discriminate.
  unfold DietPlan.headerAt. intros H.
  apply andb_prop in H as [H Hend]. apply andb_prop in H as [H Hc].
  apply andb_prop in H as [Ha Hb].
  apply N.eqb_eq in Ha, Hb. subst a b.
  pose proof (isUpper_not_star c Hc) as Hns.
  cbn [DietPlan.splitSections].
  destruct (DietPlan.splitSections rest) as [piece pieces].
  assert (DietPlan.headerAt (c :: rest) = false) as ->.
  { destruct rest as [| d [| e rest']]; try reflexivity.
    unfold DietPlan.headerAt. now rewrite Hns. }
  assert (DietPlan.headerAt (DietPlan.star :: c :: rest) = false) as ->.
  { destruct rest as [| d rest']; [reflexivity |].
    unfold DietPlan.headerAt. rewrite Hns. now rewrite andb_false_r. }
  destruct (DietPlan.headerAt rest); cbn [fst]; eexists; eexists; split;
    try reflexivity; exact Hc.
Qed.

Lemma splitSections_pieces (s : DietPlan.JsString) :
  Forall DietPlan.beginsHeader (snd (DietPlan.splitSections s)).
Proof.
  induction s as [| c rest IH]; [constructor |].
  cbn [DietPlan.splitSections].
  pose proof (headerAt_first_piece rest) as Hfirst.
  destruct (DietPlan.splitSections rest) as [piece pieces].
  cbn [fst snd] in *.
  destruct (DietPlan.headerAt rest); cbn [snd]; [| exact IH].
  constructor; [now apply Hfirst | exact IH].
Qed.

(** X21.  Cutting the generated text into sections loses nothing and
    cuts only in front of headers: the pieces joined together are the
    text, and every piece after the first begins with two stars and an
    upper-case letter.  The sections shown are the pieces that are not
    blank. *)
Theorem sections_partition_the_response (response : DietPlan.JsString) :
  fst (DietPlan.splitSections response) ++ List.concat (snd (DietPlan.splitSections response))
    = response /\
  Forall DietPlan.beginsHeader (snd (DietPlan.splitSections response)) /\
  DietPlan.formatAIResponse response
    = filter (fun section => negb (DietPlan.isBlank section))
        (fst (DietPlan.splitSections response) :: snd (DietPlan.splitSections response)) /\
  Forall (fun section => DietPlan.trim section <> [])
    (DietPlan.formatAIResponse response).
Proof.
  split; [apply splitSections_concat |]. split; [apply splitSections_pieces |].
  assert (DietPlan.formatAIResponse response
          = filter (fun section => negb (DietPlan.isBlank section))
              (fst (DietPlan.splitSections response)
               :: snd (DietPlan.splitSections response))) as Heq.
  { unfold DietPlan.formatAIResponse.
    now destruct (DietPlan.splitSections response). }
  split; [exact Heq |].
  rewrite Heq. apply Forall_forall. intros section Hin.
  apply filter_In in Hin as [_ Hnb]. unfold DietPlan.isBlank in Hnb.
  destruct (DietPlan.trim section); [discriminate | discriminate].
Qed.

Lemma nonStars_title (title after : DietPlan.JsString) :
  Forall (fun c => DietPlan.isStar c = false) title ->
  DietPlan.nonStars (title ++ DietPlan.star :: after) = (title, DietPlan.star :: after).
Proof.
  induction 1 as [| c title Hc _ IH]; cbn [app DietPlan.nonStars].
  - reflexivity.
  - now rewrite Hc, IH.
Qed.

Lemma nonStars_no_star (s : DietPlan.JsString) :
  Forall (fun c => DietPlan.isStar c = false) s -> DietPlan.nonStars s = (s, []).
Proof.
  induction 1 as [| c s Hc _ IH]; cbn [DietPlan.nonStars]; [reflexivity |].
  now rewrite Hc, IH.
Qed.

Lemma findTitle_no_star (s : DietPlan.JsString) :
  Forall (fun c => DietPlan.isStar c = false) s -> DietPlan.findTitle s = None.
Proof.
  induction 1 as [| c s Hc _ IH]; [reflexivity |].
  cbn [DietPlan.findTitle].
  assert (DietPlan.titleAt (c :: s) = None) as ->.
  { unfold DietPlan.titleAt. destruct s; [reflexivity |]. now rewrite Hc. }
  now rewrite IH.
Qed.

(** X22.  A section that begins with a complete header, two stars, a
    title without stars and two stars again, is shown under that title
    with the header removed from its content; a section without any
    star is shown under the title "Content" with its whole text as
    content. *)
Theorem section_title_and_content
  (title body plain : DietPlan.JsString) :
  title <> [] ->
  Forall (fun c => DietPlan.isStar c = false) title ->
  Forall (fun c => DietPlan.isStar c = false) plain ->
  DietPlan.extractSectionTitle
    (DietPlan.star :: DietPlan.star :: title ++ DietPlan.star :: DietPlan.star :: body)
    = title /\
  DietPlan.cleanSectionContent
    (DietPlan.star :: DietPlan.star :: title ++ DietPlan.star :: DietPlan.star :: body)
    = DietPlan.trim body /\
  DietPlan.extractSectionTitle plain = DietPlan.codeUnits "Content" /\
  DietPlan.cleanSectionContent plain = DietPlan.trim plain.
Proof.
  intros Hne Htitle Hplain.
  assert (DietPlan.findTitle
            (DietPlan.star :: DietPlan.star
             :: title ++ DietPlan.star :: DietPlan.star :: body)
          = Some ([], title, body)) as Hfind.
  { destruct title as [| c title]; [contradiction |].
    cbn [DietPlan.findTitle DietPlan.titleAt].
    change (DietPlan.isStar DietPlan.star) with true. cbn [andb].
    rewrite (nonStars_title (c :: title) (DietPlan.star :: body) Htitle).
    change (DietPlan.isStar DietPlan.star) with true. reflexivity. }
  unfold DietPlan.extractSectionTitle, DietPlan.cleanSectionContent.
  rewrite Hfind, (findTitle_no_star plain Hplain).
  repeat split.
Qed.

Lemma section_title_and_content_witness :
  DietPlan.extractSectionTitle
    (DietPlan.codeUnits "**Breakfast** Oats and fruit")
  = DietPlan.codeUnits "Breakfast".
Proof.
  apply (proj1 (section_title_and_content
                  (DietPlan.codeUnits "Breakfast") (DietPlan.codeUnits " Oats and fruit")
                  (DietPlan.codeUnits "no header")
                  ltac:(discriminate)
                  ltac:(repeat constructor) ltac:(repeat constructor))).
Defined.

(** * The API client *)

Lemma stripTrailingSlash_with (url : DietPlan.JsString) :
  Api.stripTrailingSlash (url ++ [Api.slash]) = url.
Proof.
  unfold Api.stripTrailingSlash. rewrite rev_app_distr. cbn [rev app].
  rewrite N.eqb_refl. apply rev_involutive.
Qed.

Lemma stripTrailingSlash_without (url : DietPlan.JsString) (c : N) :
  c <> Api.slash -> Api.stripTrailingSlash (url ++ [c]) = url ++ [c].
Proof.
  intros Hc. unfold Api.stripTrailingSlash. rewrite rev_app_distr. cbn [rev app].
  apply N.eqb_neq in Hc. now rewrite Hc.
Qed.

(** X23.  The base URL is never empty.  A configured URL with one
    trailing slash and the same URL without it give the same base, so a
    path appended with a leading slash never follows a slash; a missing,
    empty or slash-only configuration gives the local default. *)
Theorem base_url_without_trailing_slash (url : DietPlan.JsString) (c : N)
  (env : option DietPlan.JsString) :
  c <> Api.slash ->
  Api.API_BASE_URL (Some ((url ++ [c]) ++ [Api.slash])) = url ++ [c] /\
  Api.API_BASE_URL (Some (url ++ [c])) = url ++ [c] /\
  Api.API_BASE_URL None = Api.defaultBaseUrl /\
  Api.API_BASE_URL (Some []) = Api.defaultBaseUrl /\
  Api.API_BASE_URL (Some [Api.slash]) = Api.defaultBaseUrl /\
  Api.API_BASE_URL env <> [].
Proof.
  intros Hc. unfold Api.API_BASE_URL.
  rewrite stripTrailingSlash_with, stripTrailingSlash_without by exact Hc.
  assert (url ++ [c] <> []) as Hne by (destruct url; discriminate).
  repeat split.
  - destruct (url ++ [c]); [contradiction | reflexivity].
  - destruct (url ++ [c]); [contradiction | reflexivity].
  - destruct env as [s |]; [| discriminate].
    destruct (Api.stripTrailingSlash s); discriminate.
Qed.

Lemma base_url_without_trailing_slash_witness :
  Api.API_BASE_URL (Some (DietPlan.codeUnits "https://fithub.example/"))
  = DietPlan.codeUnits "https://fithub.example".
Proof.
  apply (proj1 (base_url_without_trailing_slash
                  (DietPlan.codeUnits "https://fithub.exampl") 101%N None
                  ltac:(discriminate))).
Defined.

(** * Push-ups with a bent back *)

(** X24.  A push-up whose downward crossing happens with the body
    outside the tolerance band is lost: the stage moves to [down] on
    that frame, so straightening the body afterwards does not count the
    repetition; nothing is counted on any later frame until the elbows
    have been extended again. *)
Theorem pushup_with_bent_back_is_lost
  (m : ExerciseMetrics) (lastRepAt : R) (bent : Landmarks) (t : R)
  (later : list (Landmarks * R)) :
  stage m = up ->
  armElbowAngle bent < 110 ->
  bodyLineAngle bent < 155 ->
  Forall (fun frame => armElbowAngle (fst frame) <= 150) later ->
  let after :=
    fold_left (fun acc frame => nextPushups (fst frame) (fst acc) (snd frame) (snd acc))
      later (nextPushups bent m t lastRepAt) in
  reps (fst after) = reps m /\ goodReps (fst after) = goodReps m /\
  stage (fst after) = down /\ snd after = lastRepAt.
Proof.
  intros Hs He Hb Hlater. cbv zeta.
  assert (reps (fst (nextPushups bent m t lastRepAt)) = reps m /\
          goodReps (fst (nextPushups bent m t lastRepAt)) = goodReps m /\
          stage (fst (nextPushups bent m t lastRepAt)) = down /\
          snd (nextPushups bent m t lastRepAt) = lastRepAt) as Hfirst.
  { unfold nextPushups, pushups_step. cbv zeta.
    rewrite Hs, (Rltb_true _ 155), (Rgtb_false _ 150), (Rltb_true _ 110) by lra.
    cbn [orb andb Stage_eqb].
    destruct (armElbowAngle bent <? 100); cbn; repeat split. }
  revert Hfirst. generalize (nextPushups bent m t lastRepAt).
  induction Hlater as [| frame later Hframe _ IH]; intros st Hst; [exact Hst |].
  cbn [fold_left]. apply IH.
  destruct Hst as (Hr & Hg & Hstage & Hl).
  unfold nextPushups, pushups_step. cbv zeta.
  rewrite Hstage, (Rgtb_false _ 150) by exact Hframe.
  cbn [Stage_eqb andb].
  destruct ((bodyLineAngle (fst frame) <? 155) || (bodyLineAngle (fst frame) >? 205));
    cbn; repeat split; assumption.
Qed.

Lemma pushup_with_bent_back_is_lost_witness :
  reps (fst (fold_left
               (fun acc frame => nextPushups (fst frame) (fst acc) (snd frame) (snd acc))
               [(pose 90 170, 1100); (pose 120 170, 1200)]
               (nextPushups (pose 90 90) (set_stage up base) 1000 0)))
  = reps (set_stage up base).
Proof.
  refine (proj1 (pushup_with_bent_back_is_lost (set_stage up base) 0 (pose 90 90) 1000
                   [(pose 90 170, 1100); (pose 120 170, 1200)] eq_refl _ _ _)).
  - rewrite armElbowAngle_pose by lra. lra.
  - rewrite bodyLineAngle_pose by lra. lra.
  - repeat constructor; cbn [fst]; rewrite armElbowAngle_pose by lra; lra.
Defined.

(** * When a counted repetition is a good one *)






(** * The PDF export *)

Lemma placeLines_margins (pageHeight : R) (lines : list string) (p : nat) (y : R) :
  2 * Pdf.margin <= pageHeight -> Pdf.margin <= y ->
  Forall (fun l => Pdf.margin <= Pdf.yPosition l <= pageHeight - Pdf.margin /\
                   (p <= Pdf.page l <= p + List.length lines)%nat)
         (Pdf.placeLines pageHeight lines p y).
Proof.
  intros HH. revert p y. induction lines as [| line rest IH]; intros p y Hy.
  - constructor.
  - cbn [Pdf.placeLines List.length].
    destruct (y >? pageHeight - Pdf.margin) eqn:Hb; Rreflect.
    + constructor.
      * cbn [Pdf.yPosition Pdf.page]. split; [lra | lia].
      * eapply Forall_impl; [| apply (IH (S p) (Pdf.margin + 5)); lra].
        cbn beta. intros l [Hl Hp]. split; [exact Hl | lia].
    + constructor.
      * cbn [Pdf.yPosition Pdf.page]. split; [lra | lia].
      * eapply Forall_impl; [| apply (IH p (y + 5)); lra].
        cbn beta. intros l [Hl Hp]. split; [exact Hl | lia].
Qed.

Lemma placeLines_text (pageHeight : R) (lines : list string) (p : nat) (y : R) :
  map Pdf.text (Pdf.placeLines pageHeight lines p y) = lines.
Proof.
  revert p y. induction lines as [| line rest IH]; intros p y; [reflexivity |].
  cbn [Pdf.placeLines]. destruct (y >? pageHeight - Pdf.margin);
    cbn [map Pdf.text]; now rewrite IH.
Qed.

Lemma placeLines_pages (pageHeight : R) (lines : list string) (p : nat) (y : R) :
  2 * Pdf.margin <= pageHeight -> Pdf.margin <= y ->
  StronglySorted (fun a b => (Pdf.page a <= Pdf.page b)%nat)
                 (Pdf.placeLines pageHeight lines p y).
Proof.
  intros HH. revert p y. induction lines as [| line rest IH]; intros p y Hy.
  - constructor.
  - cbn [Pdf.placeLines].
    destruct (y >? pageHeight - Pdf.margin) eqn:Hb; Rreflect.
    + constructor; [apply IH; unfold Pdf.margin in *; lra |].
      eapply Forall_impl;
        [| apply (placeLines_margins pageHeight rest (S p) (Pdf.margin + 5));
           unfold Pdf.margin in *; lra].
      cbn beta. intros l [_ Hp]. cbn [Pdf.page]. lia.
    + constructor; [apply IH; lra |].
      eapply Forall_impl;
        [| apply (placeLines_margins pageHeight rest p (y + 5)); lra].
      cbn beta. intros l [_ Hp]. cbn [Pdf.page]. lia.
Qed.

Lemma bodyStart_value : Pdf.bodyStart = 127.
Proof. unfold Pdf.bodyStart, Pdf.margin. cbn [fold_left seq]. lra. Qed.

(** X26.  On a page at least two margins high the export prints every
    line of the plan, in order and once; each is drawn between the top
    and the bottom margin, and the page numbers never go back. *)
Theorem pdf_lines_within_margins (pageHeight : R) (lines : list string) :
  2 * Pdf.margin <= pageHeight ->
  map Pdf.text (Pdf.planLines pageHeight lines) = lines /\
  Forall (fun l => Pdf.margin <= Pdf.yPosition l <= pageHeight - Pdf.margin)
         (Pdf.planLines pageHeight lines) /\
  StronglySorted (fun a b => (Pdf.page a <= Pdf.page b)%nat)
                 (Pdf.planLines pageHeight lines).
Proof.
  intros HH. unfold Pdf.planLines.
  assert (Hs : Pdf.margin <= Pdf.bodyStart)
    by (rewrite bodyStart_value; unfold Pdf.margin; lra).
  split; [apply placeLines_text |]. split.
  - eapply Forall_impl; [| apply placeLines_margins; assumption].
    cbn beta. intros l [Hl _]. exact Hl.
  - apply placeLines_pages; assumption.
Qed.

Lemma pdf_lines_within_margins_witness :
  map Pdf.text (Pdf.planLines 297 ["Breakfast"%string; "Lunch"%string])
    = ["Breakfast"%string; "Lunch"%string] /\
  Forall (fun l => Pdf.margin <= Pdf.yPosition l <= 297 - Pdf.margin)
         (Pdf.planLines 297 ["Breakfast"%string; "Lunch"%string]) /\
  StronglySorted (fun a b => (Pdf.page a <= Pdf.page b)%nat)
                 (Pdf.planLines 297 ["Breakfast"%string; "Lunch"%string]).
Proof.
  apply (pdf_lines_within_margins 297 ["Breakfast"%string; "Lunch"%string]).
  unfold Pdf.margin. lra.
Defined.
